(** * The shopping-list worker: request routing of [src/index.ts]

    A shallow embedding of the Worker's [fetch] handler.  The handler
    talks to three collaborators that live outside the repository: the
    Realm authentication service, the BSON [ObjectId] constructor and the
    remote MongoDB collection.  They appear here as an environment
    ([Env]) and a store ([store]) threaded through a small state-and-
    exception monad, so that [try]/[catch] and the order of the remote
    calls read as they do in the source. *)

From Stdlib Require Import String Ascii List ZArith NArith Bool Lia.
From Stdlib Require QArith_base.
Import ListNotations.
Open Scope string_scope.

(** ** JavaScript values *)

Definition oid := N.

(** The values the handler moves around: what [JSON.parse] produces,
    [undefined] (a property that is not there), and [ObjectId] instances.
    An object is its property table in insertion order.  A number is never
    computed with, only tested for truthiness; it is kept as the rational
    it denotes. *)
#[warnings="-register-all"]
Inductive jsval : Type :=
| JUndefined
| JNull
| JBool (b : bool)
| JNum (q : QArith_base.Q)
| JStr (s : string)
| JOid (o : oid)
| JArr (items : list jsval)
| JObj (fields : list (string * jsval)).

Definition object := list (string * jsval).

(** JavaScript's [ToBoolean]. *)
Definition truthy (v : jsval) : bool :=
  match v with
  | JUndefined | JNull => false
  | JBool b => b
  | JNum q => negb (Z.eqb (QArith_base.Qnum q) 0)
  | JStr s => negb (String.eqb s "")
  | JOid _ | JArr _ | JObj _ => true
  end.

(** [a || b] *)
Definition js_or (a b : jsval) : jsval := if truthy a then a else b.

(** [!a] *)
Definition js_not (a : jsval) : jsval := JBool (negb (truthy a)).

(** [v !== undefined] *)
Definition defined (v : jsval) : bool :=
  match v with JUndefined => false | _ => true end.

Definition is_boolean (v : jsval) : bool :=
  match v with JBool _ => true | _ => false end.

(** Property read on a property table: the first entry named [k], else
    [undefined]. *)
Fixpoint get_prop (k : string) (o : object) : jsval :=
  match o with
  | [] => JUndefined
  | (k', v) :: rest => if String.eqb k k' then v else get_prop k rest
  end.

(** Own-property test ([k in o] for a plain object). *)
Fixpoint has_prop (k : string) (o : object) : bool :=
  match o with
  | [] => false
  | (k', _) :: rest => if String.eqb k k' then true else has_prop k rest
  end.

(** Property write [o.k = v]: an existing property keeps its place, a new
    one goes last. *)
Fixpoint set_prop (k : string) (v : jsval) (o : object) : object :=
  match o with
  | [] => [(k, v)]
  | (k', v') :: rest =>
      if String.eqb k k' then (k', v) :: rest else (k', v') :: set_prop k v rest
  end.

(** [v.k] for the keys the handler reads ([name], [purchased],
    [quantity]): none of them is a built-in property of a string, number,
    boolean or array, so only objects answer with something defined. *)
Definition member (k : string) (v : jsval) : jsval :=
  match v with
  | JObj o => get_prop k o
  | _ => JUndefined
  end.

(** ** Exceptions and the handler monad *)

(** A thrown value, seen the way the outer [catch] sees it
    ([(err as Error).message]): an object with a message, or without. *)
Record exn : Type := Exn { message : option string }.

Inductive result (A : Type) : Type :=
| Ok (a : A)
| Throw (e : exn).
Arguments Ok {A} a.
Arguments Throw {A} e.

(** The calls that leave the Worker. *)
Inductive call : Type :=
| LogIn (token : string)
| FindOne (o : oid)
| Find
| InsertOne (d : object)
| UpdateOne (o : oid) (set : object)
| DeleteOne (o : oid).

(** The remote side: the documents of [cloudflare.shopping_list] and the
    calls received so far, oldest first. *)
Record store : Type := Store { docs : list object; calls : list call }.

Definition M (A : Type) : Type := store -> result A * store.

Definition ret {A} (a : A) : M A := fun s => (Ok a, s).

Definition bind {A B} (m : M A) (k : A -> M B) : M B :=
  fun s =>
    match m s with
    | (Ok a, s') => k a s'
    | (Throw e, s') => (Throw e, s')
    end.

(** [try { m } catch (err) { h err }] *)
Definition try_catch {A} (m : M A) (h : exn -> M A) : M A :=
  fun s =>
    match m s with
    | (Ok a, s') => (Ok a, s')
    | (Throw e, s') => h e s'
    end.

Definition lift {A} (r : result A) : M A := fun s => (r, s).

Notation "x <- m ;; k" := (bind m (fun x => k))
  (at level 61, m at next level, right associativity).

(** ** The environment *)

(** What the collaborators decide.  [logIn] covers the three statements of
    the authentication [try] block; [open_collection] is
    [client.db('cloudflare').collection('shopping_list')]; [ObjectId] is
    the identifier constructor; [fault] says which remote collection call
    fails, and with what. *)
Record Env : Type := {
  logIn : string -> option exn;
  open_collection : option exn;
  ObjectId : string -> result oid;
  fault : call -> option exn
}.

(** ** The remote collection *)

Definition has_id (o : oid) (d : object) : bool :=
  match get_prop "_id" d with
  | JOid o' => N.eqb o o'
  | _ => false
  end.

Fixpoint find_doc (o : oid) (ds : list object) : option object :=
  match ds with
  | [] => None
  | d :: rest => if has_id o d then Some d else find_doc o rest
  end.

Fixpoint update_first (o : oid) (f : object -> object) (ds : list object)
  : list object :=
  match ds with
  | [] => []
  | d :: rest => if has_id o d then f d :: rest else d :: update_first o f rest
  end.

Fixpoint delete_first (o : oid) (ds : list object) : list object :=
  match ds with
  | [] => []
  | d :: rest => if has_id o d then rest else d :: delete_first o rest
  end.

(** [{ $set: u }] applied to a document: every property of [u] is
    written, with the value [u] has for it.  (What the client library
    puts on the wire for a property whose value is [undefined] is its own
    business; no statement below rests on it.) *)
Definition apply_set (u : object) (d : object) : object :=
  fold_left (fun acc kv => set_prop (fst kv) (snd kv) acc) u d.

Definition count_of (b : bool) : jsval :=
  JNum (QArith_base.inject_Z (if b then 1 else 0)).

Definition matched (o : oid) (ds : list object) : bool :=
  match find_doc o ds with Some _ => true | None => false end.

(** The identifier the store gives a new document: one it has not used. *)
Definition doc_id (d : object) : oid :=
  match get_prop "_id" d with JOid o => o | _ => 0%N end.

Definition fresh_id (ds : list object) : oid :=
  N.succ (fold_right N.max 0%N (map doc_id ds)).

Definition record_call (c : call) (s : store) : store :=
  {| docs := docs s; calls := calls s ++ [c] |}.

(** One remote collection call: it is received, then fails as the
    environment says or runs [op] on the documents. *)
Definition remote {A} (env : Env) (c : call)
  (op : list object -> A * list object) : M A :=
  fun s =>
    let s1 := record_call c s in
    match fault env c with
    | Some e => (Throw e, s1)
    | None =>
        let '(a, ds) := op (docs s1) in
        (Ok a, {| docs := ds; calls := calls s1 |})
    end.

Module collection.

Definition findOne (env : Env) (o : oid) : M jsval :=
  remote env (FindOne o)
    (fun ds =>
       (match find_doc o ds with Some d => JObj d | None => JNull end, ds)).

Definition find (env : Env) : M jsval :=
  remote env Find (fun ds => (JArr (map JObj ds), ds)).

Definition insertOne (env : Env) (d : object) : M jsval :=
  remote env (InsertOne d)
    (fun ds =>
       let i := fresh_id ds in
       (JObj [("insertedId", JOid i)], (ds ++ [("_id", JOid i) :: d])%list)).

Definition updateOne (env : Env) (o : oid) (u : object) : M jsval :=
  remote env (UpdateOne o u)
    (fun ds =>
       (JObj [("matchedCount", count_of (matched o ds))],
        update_first o (apply_set u) ds)).

Definition deleteOne (env : Env) (o : oid) : M jsval :=
  remote env (DeleteOne o)
    (fun ds =>
       (JObj [("deletedCount", count_of (matched o ds))],
        delete_first o ds)).

End collection.

(** ** Responses *)

Record Response : Type := { status : Z; body : jsval }.

Module utils.

(** Modelled from the spec: [utils.reply] of [./utils], which is not
    among the sources.  The success formatter answers 200 with the
    envelope [{ success: true, payload }]. *)
Definition reply (payload : jsval) : Response :=
  {| status := 200;
     body := JObj [("success", JBool true); ("payload", payload)] |}.

(** Modelled from the spec: [utils.toError] of [./utils], which is not
    among the sources.  The error formatter answers the given status
    with the envelope [{ success: false, error }]. *)
Definition toError (msg : string) (code : Z) : Response :=
  {| status := code;
     body := JObj [("success", JBool false); ("error", JStr msg)] |}.

End utils.

(** ** The request *)

(** A request as the handler reads it: [req.method], [url.pathname],
    [url.searchParams.get('id')], [req.headers.get('authorization')] and
    the outcome of [await req.json()]. *)
Record Request : Type := {
  method : string;
  pathname : string;
  id_param : option string;
  authorization : option string;
  json : result jsval
}.

Definition slash : ascii := "/"%char.

(** [s.replace(/[/]$/, '')]: one slash at the very end goes. *)
Fixpoint strip_trailing_slash (s : string) : string :=
  match s with
  | EmptyString => EmptyString
  | String c rest =>
      match rest with
      | EmptyString => if Ascii.eqb c slash then EmptyString else s
      | _ => String c (strip_trailing_slash rest)
      end
  end.

(** [url.searchParams.get('id') || ''] *)
Definition itemID (req : Request) : string :=
  match id_param req with
  | Some s => s
  | None => ""
  end.

Definition resource : string := "/api/shopping_list".

Definition dq : string := String (ascii_of_nat 34) EmptyString.

Definition unknown_url (path : string) : string :=
  "Unknown " ++ dq ++ path ++ dq ++ " URL; try " ++ dq ++ resource ++ dq
  ++ " instead.".

Definition missing_header : string :=
  "Missing " ++ dq ++ "authorization" ++ dq
  ++ " header; try to add the header " ++ dq
  ++ "authorization: REALM_API_KEY" ++ dq ++ ".".

(** What destructuring [null] throws; the text is the engine's. *)
Definition TypeError_destructure : exn :=
  Exn (Some "Cannot destructure property 'name' of null.").

(** [const { name, purchased, quantity } = v] *)
Definition destructure (v : jsval) : result (jsval * jsval * jsval) :=
  match v with
  | JUndefined | JNull => Throw TypeError_destructure
  | _ => Ok (member "name" v, member "purchased" v, member "quantity" v)
  end.

(** [(err as Error).message || 'Error with query.'] *)
Definition query_message (e : exn) : string :=
  match message e with
  | Some m => if String.eqb m "" then "Error with query." else m
  | None => "Error with query."
  end.

(** ** The handler *)

(** The authentication [try] block: [Realm.Credentials.apiKey(token)],
    [App.logIn] and [user.mongoClient]. *)
Definition authenticate (env : Env) (token : string) : M unit :=
  fun s =>
    let s1 := record_call (LogIn token) s in
    match logIn env token with
    | Some e => (Throw e, s1)
    | None => (Ok tt, s1)
    end.

(** The document POST inserts. *)
Definition newDocument (name purchased quantity : jsval) : object :=
  [("name", name);
   ("purchased", js_or purchased (JBool false));
   ("quantity", quantity)].

(** The object PUT hands to [$set]: the literal, then the three guarded
    assignments. *)
Definition updateObject (name purchased quantity : jsval) : object :=
  let u0 := [("name", name); ("purchased", purchased);
             ("quantity", quantity); ("_id", JUndefined)] in
  let u1 := if defined name then set_prop "name" name u0 else u0 in
  let u2 := if defined purchased then set_prop "purchased" purchased u1
            else u1 in
  if defined quantity then set_prop "quantity" quantity u2 else u2.

Definition GET (env : Env) (req : Request) : M Response :=
  if negb (String.eqb (itemID req) "") then
    o <- lift (ObjectId env (itemID req)) ;;
    found <- collection.findOne env o ;;
    ret (utils.reply found)
  else
    all <- collection.find env ;;
    ret (utils.reply all).

Definition POST (env : Env) (req : Request) : M Response :=
  parsed <- lift (json req) ;;
  fields <- lift (destructure parsed) ;;
  let '(name, purchased, quantity) := fields in
  inserted <- collection.insertOne env (newDocument name purchased quantity) ;;
  ret (utils.reply inserted).

Definition PATCH (env : Env) (req : Request) : M Response :=
  try_catch
    (o <- lift (ObjectId env (itemID req)) ;;
     existingDocument <- collection.findOne env o ;;
     if truthy existingDocument then
       let updatedPurchasedValue :=
         js_not (member "purchased" existingDocument) in
       o' <- lift (ObjectId env (itemID req)) ;;
       result <- collection.updateOne env o'
                   [("purchased", updatedPurchasedValue)] ;;
       ret (utils.reply result)
     else
       ret (utils.toError "Document not found" 404))
    (fun _ => ret (utils.toError "Internal Server Error" 500)).

Definition PUT (env : Env) (req : Request) : M Response :=
  try_catch
    (parsed <- lift (json req) ;;
     fields <- lift (destructure parsed) ;;
     let '(name, purchased, quantity) := fields in
     o <- lift (ObjectId env (itemID req)) ;;
     result <- collection.updateOne env o
                 (updateObject name purchased quantity) ;;
     ret (utils.reply result))
    (fun _ => ret (utils.toError "Internal Server Error" 500)).

Definition DELETE (env : Env) (req : Request) : M Response :=
  o <- lift (ObjectId env (itemID req)) ;;
  deleted <- collection.deleteOne env o ;;
  ret (utils.reply deleted).

(** The body of the outer [try]. *)
Definition dispatch (env : Env) (req : Request) : M Response :=
  if String.eqb (method req) "GET" then GET env req
  else if String.eqb (method req) "POST" then POST env req
  else if String.eqb (method req) "PATCH" then PATCH env req
  else if String.eqb (method req) "PUT" then PUT env req
  else if String.eqb (method req) "DELETE" then DELETE env req
  else ret (utils.toError "Method not allowed." 405).

(** Everything after the header check: log in, take the collection
    handle (between the two [try] blocks), dispatch under the outer
    [try]. *)
Definition serve (env : Env) (req : Request) (token : string) : M Response :=
  refused <- try_catch
               (_ <- authenticate env token ;; ret None)
               (fun _ =>
                  ret (Some (utils.toError "Error with authentication." 500))) ;;
  match refused with
  | Some response => ret response
  | None =>
      _ <- lift (match open_collection env with
                 | Some e => Throw e
                 | None => Ok tt
                 end) ;;
      try_catch (dispatch env req)
        (fun err => ret (utils.toError (query_message err) 500))
  end.

(** [fetch(req, env)], from the path check on: the URL comes parsed in
    [req] and the [App] handle is there.  [Ok r] is the response returned;
    [Throw e] is an exception that leaves the handler. *)
Definition fetch (env : Env) (req : Request) : M Response :=
  let path := strip_trailing_slash (pathname req) in
  if negb (String.eqb path resource) then
    ret (utils.toError (unknown_url path) 404)
  else
    match authorization req with
    | None => ret (utils.toError missing_header 401)
    | Some token =>
        if String.eqb token "" then ret (utils.toError missing_header 401)
        else serve env req token
    end.

(** ** A concrete environment *)

Definition hex_digit (c : ascii) : option N :=
  let n := N_of_ascii c in
  if andb (N.leb 48 n) (N.leb n 57) then Some (n - 48)%N
  else if andb (N.leb 97 n) (N.leb n 102) then Some (n - 87)%N
  else if andb (N.leb 65 n) (N.leb n 70) then Some (n - 55)%N
  else None.

Fixpoint hex_value (acc : N) (s : string) : option N :=
  match s with
  | EmptyString => Some acc
  | String c rest =>
      match hex_digit c with
      | Some d => hex_value (16 * acc + d)%N rest
      | None => None
      end
  end.

Definition BSONTypeError : exn :=
  Exn (Some "Argument passed in must be a string of 24 hex characters").

(** An identifier constructor that takes the 24-digit hexadecimal form
    and throws on anything else. *)
Definition hexObjectId (s : string) : result oid :=
  if Nat.eqb (String.length s) 24 then
    match hex_value 0 s with
    | Some n => Ok n
    | None => Throw BSONTypeError
    end
  else Throw BSONTypeError.

(** A call that can change the collection. *)
Definition is_write (c : call) : bool :=
  match c with
  | InsertOne _ | UpdateOne _ _ | DeleteOne _ => true
  | _ => false
  end.

(** Every collaborator answers. *)
Definition up : Env :=
  {| logIn := fun _ => None;
     open_collection := None;
     ObjectId := hexObjectId;
     fault := fun _ => None |}.

(** The authentication service turns the key down. *)
Definition rejecting : Env :=
  {| logIn := fun _ => Some (Exn (Some "invalid API key"));
     open_collection := None;
     ObjectId := hexObjectId;
     fault := fun _ => None |}.

(** Taking the collection handle throws. *)
Definition no_handle : Env :=
  {| logIn := fun _ => None;
     open_collection := Some (Exn (Some "no such service"));
     ObjectId := hexObjectId;
     fault := fun _ => None |}.

(** The collection is unreachable: every call on it throws. *)
Definition down (e : exn) : Env :=
  {| logIn := fun _ => None;
     open_collection := None;
     ObjectId := hexObjectId;
     fault := fun _ => Some e |}.

(** The collection can be read but every write on it throws. *)
Definition read_only (e : exn) : Env :=
  {| logIn := fun _ => None;
     open_collection := None;
     ObjectId := hexObjectId;
     fault := fun c => if is_write c then Some e else None |}.

Definition request (m : string) (id : option string) (b : result jsval)
  : Request :=
  {| method := m;
     pathname := "/api/shopping_list";
     id_param := id;
     authorization := Some "key";
     json := b |}.

Definition no_body : result jsval :=
  Throw (Exn (Some "Unexpected end of JSON input")).

Definition milk_id : string := "00000000000000000000000a".

Definition milk : object :=
  [("_id", JOid 10%N); ("name", JStr "Milk"); ("purchased", JBool false);
   ("quantity", JStr "1L")].

Definition eggs : object :=
  [("_id", JOid 11%N); ("name", JStr "Eggs"); ("purchased", JBool true);
   ("quantity", JStr "12")].

Definition pantry : store := {| docs := [milk; eggs]; calls := [] |}.

Definition empty : store := {| docs := []; calls := [] |}.

(** ** Reading the handler stage by stage *)

Definition on_resource (req : Request) : Prop :=
  strip_trailing_slash (pathname req) = resource.

(** The request carries a non-empty key and the service accepts it. *)
Definition authenticated (env : Env) (req : Request) (token : string) : Prop :=
  authorization req = Some token /\ token <> "" /\ logIn env token = None.

(** The request gets as far as the method dispatch. *)
Definition reaches_dispatch (env : Env) (req : Request) (token : string)
  : Prop :=
  on_resource req /\ authenticated env req token /\ open_collection env = None.

(** The outer [try] around the dispatch. *)
Definition guarded_dispatch (env : Env) (req : Request) : M Response :=
  try_catch (dispatch env req)
    (fun err => ret (utils.toError (query_message err) 500)).

Definition logged_in (token : string) (st : store) : store :=
  record_call (LogIn token) st.

(** What PATCH writes for a document [d]: [!d.purchased]. *)
Definition toggled (d : object) : jsval := js_not (get_prop "purchased" d).

(** The places under the outer [try], and outside the inner handlers of
    PATCH and PUT, where an exception can be raised: the identifier
    constructor and the lookups of GET, the body parsing, destructuring
    and insert of POST, the identifier constructor and delete of
    DELETE. *)
Inductive raised_outside_inner (env : Env) (req : Request) : exn -> Prop :=
| in_GET_ObjectId e :
    method req = "GET" -> itemID req <> "" ->
    ObjectId env (itemID req) = Throw e ->
    raised_outside_inner env req e
| in_GET_findOne o e :
    method req = "GET" -> itemID req <> "" ->
    ObjectId env (itemID req) = Ok o -> fault env (FindOne o) = Some e ->
    raised_outside_inner env req e
| in_GET_find e :
    method req = "GET" -> itemID req = "" -> fault env Find = Some e ->
    raised_outside_inner env req e
| in_POST_json e :
    method req = "POST" -> json req = Throw e ->
    raised_outside_inner env req e
| in_POST_destructure v e :
    method req = "POST" -> json req = Ok v -> destructure v = Throw e ->
    raised_outside_inner env req e
| in_POST_insertOne v n p q e :
    method req = "POST" -> json req = Ok v -> destructure v = Ok (n, p, q) ->
    fault env (InsertOne (newDocument n p q)) = Some e ->
    raised_outside_inner env req e
| in_DELETE_ObjectId e :
    method req = "DELETE" -> ObjectId env (itemID req) = Throw e ->
    raised_outside_inner env req e
| in_DELETE_deleteOne o e :
    method req = "DELETE" -> ObjectId env (itemID req) = Ok o ->
    fault env (DeleteOne o) = Some e ->
    raised_outside_inner env req e.

(** ** Counting and sorting the remote calls *)

(** A call on the collection, as opposed to the login. *)
Definition is_collection_call (c : call) : bool :=
  match c with
  | LogIn _ => false
  | _ => true
  end.

(** A call that only reads the collection. *)
Definition is_read (c : call) : bool :=
  match c with
  | FindOne _ | Find => true
  | _ => false
  end.

(** [m] only appends to the call log: at most [n] calls, each one
    accepted by [P]. *)
Definition emits {A} (P : call -> bool) (n : nat) (m : M A) : Prop :=
  forall s,
    exists cs,
      calls (snd (m s)) = (calls s ++ cs)%list /\
      length cs <= n /\ forallb P cs = true.

(** Whenever [m] returns, what it returns satisfies [Q]. *)
Definition answers {A} (Q : A -> Prop) (m : M A) : Prop :=
  forall s a s', m s = (Ok a, s') -> Q a.

(** [m] leaves the documents alone. *)
Definition keeps_docs {A} (m : M A) : Prop :=
  forall s, docs (snd (m s)) = docs s.

(** At most one document of [ds] carries the identifier [o]. *)
Definition unique_id (o : oid) (ds : list object) : Prop :=
  length (filter (has_id o) ds) <= 1.

(** The responses the handler builds: a success envelope, or an error
    envelope with one of four statuses. *)
Definition handler_response (r : Response) : Prop :=
  (exists payload, r = utils.reply payload) \/
  (exists msg code,
     r = utils.toError msg code /\ In code [401; 404; 405; 500]%Z).

Lemma fetch_off_resource env req st :
  ~ on_resource req ->
  fetch env req st =
  (Ok (utils.toError (unknown_url (strip_trailing_slash (pathname req))) 404),
   st).
Proof.
  unfold on_resource, fetch; intros Hp.
  apply String.eqb_neq in Hp. rewrite Hp. reflexivity.
Qed.

Lemma fetch_serve env req token st :
  on_resource req -> authorization req = Some token -> token <> "" ->
  fetch env req st = serve env req token st.
Proof.
  unfold on_resource, fetch; intros Hp Ha Ht.
  rewrite Hp, String.eqb_refl, Ha. simpl.
  apply String.eqb_neq in Ht. rewrite Ht. reflexivity.
Qed.

Lemma serve_rejected env req token e st :
  logIn env token = Some e ->
  serve env req token st =
  (Ok (utils.toError "Error with authentication." 500), logged_in token st).
Proof.
  intros Hl. unfold serve, bind, try_catch, authenticate, ret.
  rewrite Hl. reflexivity.
Qed.

Lemma serve_no_handle env req token e st :
  logIn env token = None -> open_collection env = Some e ->
  serve env req token st = (Throw e, logged_in token st).
Proof.
  intros Hl Ho. unfold serve, bind, try_catch, authenticate, ret, lift.
  rewrite Hl, Ho. reflexivity.
Qed.

Lemma serve_dispatch env req token st :
  logIn env token = None -> open_collection env = None ->
  serve env req token st = guarded_dispatch env req (logged_in token st).
Proof.
  intros Hl Ho. unfold serve, bind, try_catch, authenticate, ret, lift.
  rewrite Hl, Ho. reflexivity.
Qed.

Lemma fetch_dispatch env req token st :
  reaches_dispatch env req token ->
  fetch env req st = guarded_dispatch env req (logged_in token st).
Proof.
  intros (Hp & (Ha & Ht & Hl) & Ho).
  rewrite (fetch_serve env req token st Hp Ha Ht).
  now apply serve_dispatch.
Qed.

(** The outer [catch]: a throw of the dispatch becomes a 500. *)
Lemma guarded_dispatch_throw env req e s s' :
  dispatch env req s = (Throw e, s') ->
  guarded_dispatch env req s =
  (Ok (utils.toError (query_message e) 500), s').
Proof.
  intros H. unfold guarded_dispatch, try_catch. rewrite H. reflexivity.
Qed.

Lemma guarded_dispatch_ok env req r s s' :
  dispatch env req s = (Ok r, s') ->
  guarded_dispatch env req s = (Ok r, s').
Proof.
  intros H. unfold guarded_dispatch, try_catch. rewrite H. reflexivity.
Qed.

(** Under the outer [try] nothing escapes. *)
Lemma guarded_dispatch_returns env req s :
  exists r s', guarded_dispatch env req s = (Ok r, s').
Proof.
  unfold guarded_dispatch, try_catch.
  destruct (dispatch env req s) as [[r | e] s']; unfold ret; eauto.
Qed.

Lemma dispatch_method env req m :
  method req = m ->
  dispatch env req =
  if String.eqb m "GET" then GET env req
  else if String.eqb m "POST" then POST env req
  else if String.eqb m "PATCH" then PATCH env req
  else if String.eqb m "PUT" then PUT env req
  else if String.eqb m "DELETE" then DELETE env req
  else ret (utils.toError "Method not allowed." 405).
Proof. intros <-. reflexivity. Qed.

(** ** Path and authentication *)

(** C8: a request whose path, with one trailing slash removed, is not
    [/api/shopping_list] is answered 404 with a message that names the
    path asked for and the one expected, whatever its method and whether
    or not it carries an authorization header; nothing else happens (the
    store and its call log are as before). *)
Theorem unknown_path_404 (env : Env) (req : Request) (st : store) :
  strip_trailing_slash (pathname req) <> resource ->
  fetch env req st =
  (Ok (utils.toError
         ("Unknown " ++ dq ++ strip_trailing_slash (pathname req) ++ dq
          ++ " URL; try " ++ dq ++ "/api/shopping_list" ++ dq ++ " instead.")
         404),
   st).
Proof. intros H. now rewrite fetch_off_resource. Qed.

Lemma unknown_path_404_witness :
  strip_trailing_slash "/api/shopping_list//" <> resource /\
  fetch rejecting
    {| method := "BREW"; pathname := "/api/shopping_list//";
       id_param := None; authorization := None; json := no_body |}
    pantry =
  (Ok {| status := 404;
         body := JObj [("success", JBool false);
                       ("error",
                        JStr ("Unknown " ++ dq ++ "/api/shopping_list/" ++ dq
                              ++ " URL; try " ++ dq ++ "/api/shopping_list"
                              ++ dq ++ " instead."))] |},
   pantry).
Proof.
  split.
  - vm_compute. discriminate.
  - apply (unknown_path_404 rejecting
             {| method := "BREW"; pathname := "/api/shopping_list//";
                id_param := None; authorization := None; json := no_body |}
             pantry).
    vm_compute. discriminate.
Defined.

(** C7: on the valid path, a missing or empty authorization header is
    answered 401 without any remote call (the call log is untouched); a
    header that is there but whose login fails, for whatever reason [e],
    is answered 500 with the one message "Error with authentication.". *)
Theorem authentication_failures (env : Env) (req : Request) (st : store) :
  strip_trailing_slash (pathname req) = resource ->
  (authorization req = None \/ authorization req = Some "" ->
   fetch env req st = (Ok (utils.toError missing_header 401), st)) /\
  (forall token e,
     authorization req = Some token -> token <> "" ->
     logIn env token = Some e ->
     fetch env req st =
     (Ok (utils.toError "Error with authentication." 500),
      logged_in token st)).
Proof.
  intros Hp. split.
  - intros Ha. unfold fetch. rewrite Hp. simpl.
    destruct Ha as [-> | ->]; reflexivity.
  - intros token e Ha Ht Hl.
    rewrite (fetch_serve env req token st Hp Ha Ht).
    now apply (serve_rejected env req token e).
Qed.

Lemma authentication_failures_witness :
  fetch up {| method := "GET"; pathname := "/api/shopping_list/";
              id_param := None; authorization := Some "";
              json := no_body |} pantry =
  (Ok (utils.toError missing_header 401), pantry) /\
  fetch rejecting (request "GET" None no_body) pantry =
  (Ok (utils.toError "Error with authentication." 500),
   {| docs := [milk; eggs]; calls := [LogIn "key"] |}).
Proof.
  split.
  - apply (authentication_failures up
             {| method := "GET"; pathname := "/api/shopping_list/";
                id_param := None; authorization := Some "";
                json := no_body |} pantry).
    + reflexivity.
    + right. reflexivity.
  - apply (proj2 (authentication_failures rejecting
                    (request "GET" None no_body) pantry eq_refl)
             "key" (Exn (Some "invalid API key"))).
    + reflexivity.
    + discriminate.
    + reflexivity.
Defined.

(** ** Method dispatch *)

(** C9: an authenticated request on the valid path whose method is not,
    letter for letter, one of GET, POST, PATCH, PUT, DELETE is answered
    405 "Method not allowed."; the only remote call is the login, the
    collection is neither read nor written. *)
Theorem unknown_method_405 (env : Env) (req : Request) (token : string)
  (st : store) :
  reaches_dispatch env req token ->
  method req <> "GET" -> method req <> "POST" -> method req <> "PATCH" ->
  method req <> "PUT" -> method req <> "DELETE" ->
  fetch env req st =
  (Ok (utils.toError "Method not allowed." 405),
   {| docs := docs st; calls := calls st ++ [LogIn token] |}).
Proof.
  intros Hr H1 H2 H3 H4 H5.
  rewrite (fetch_dispatch env req token st Hr).
  apply guarded_dispatch_ok. unfold dispatch.
  apply String.eqb_neq in H1, H2, H3, H4, H5.
  rewrite H1, H2, H3, H4, H5. reflexivity.
Qed.

Lemma unknown_method_405_witness :
  reaches_dispatch up (request "get" (Some milk_id) no_body) "key" /\
  fetch up (request "get" (Some milk_id) no_body) pantry =
  (Ok (utils.toError "Method not allowed." 405),
   {| docs := [milk; eggs]; calls := [LogIn "key"] |}).
Proof.
  assert (H : reaches_dispatch up (request "get" (Some milk_id) no_body) "key").
  { repeat split. discriminate. }
  split; [exact H|].
  apply (unknown_method_405 up (request "get" (Some milk_id) no_body) "key"
           pantry H); discriminate.
Defined.

(** ** Remote calls, one at a time *)

Lemma remote_ok {A} env c (op : list object -> A * list object) s :
  fault env c = None ->
  remote env c op s =
  (Ok (fst (op (docs s))),
   {| docs := snd (op (docs s)); calls := calls s ++ [c] |}).
Proof.
  intros H. unfold remote. rewrite H. simpl.
  destruct (op (docs s)); reflexivity.
Qed.

Lemma remote_fault {A} env c (op : list object -> A * list object) s e :
  fault env c = Some e ->
  remote env c op s = (Throw e, record_call c s).
Proof. intros H. unfold remote. rewrite H. reflexivity. Qed.

Lemma logged_in_calls token st c :
  calls (record_call c (logged_in token st))
  = (calls st ++ [LogIn token; c])%list.
Proof. simpl. now rewrite <- app_assoc. Qed.

Lemma eqb_false_of_neq (a b : string) : a <> b -> String.eqb a b = false.
Proof. apply String.eqb_neq. Qed.

(** ** GET by identifier *)

Lemma GET_by_id env req o s :
  itemID req <> "" -> ObjectId env (itemID req) = Ok o ->
  fault env (FindOne o) = None ->
  GET env req s =
  (Ok (utils.reply
         (match find_doc o (docs s) with Some d => JObj d | None => JNull end)),
   record_call (FindOne o) s).
Proof.
  intros Hi Ho Hf. unfold GET.
  rewrite (eqb_false_of_neq _ _ Hi). simpl.
  unfold bind, lift. rewrite Ho.
  unfold collection.findOne. rewrite (remote_ok _ _ _ _ Hf). reflexivity.
Qed.

(** C6, as the code has it: a GET on the valid path, authenticated, whose
    [id] is not empty and is accepted by the identifier constructor, and
    whose lookup goes through, is answered with success: the document
    with that identifier if there is one, [null] if there is none.  The
    collection is only read. *)
Theorem get_by_id_found_or_null (env : Env) (req : Request) (token : string)
  (o : oid) (st : store) :
  reaches_dispatch env req token ->
  method req = "GET" ->
  itemID req <> "" ->
  ObjectId env (itemID req) = Ok o ->
  fault env (FindOne o) = None ->
  fetch env req st =
  (Ok (utils.reply
         (match find_doc o (docs st) with Some d => JObj d | None => JNull end)),
   {| docs := docs st; calls := calls st ++ [LogIn token; FindOne o] |}).
Proof.
  intros Hr Hm Hi Ho Hf.
  rewrite (fetch_dispatch env req token st Hr).
  erewrite guarded_dispatch_ok.
  2:{ rewrite (dispatch_method env req "GET" Hm). simpl.
      apply GET_by_id; eassumption. }
  f_equal. unfold record_call at 1. f_equal. apply logged_in_calls.
Qed.

Lemma get_by_id_found_or_null_witness :
  fetch up (request "GET" (Some milk_id) no_body) pantry =
  (Ok (utils.reply (JObj milk)),
   {| docs := [milk; eggs]; calls := [LogIn "key"; FindOne 10%N] |})
  /\
  fetch up (request "GET" (Some "00000000000000000000000c") no_body) pantry =
  (Ok (utils.reply JNull),
   {| docs := [milk; eggs]; calls := [LogIn "key"; FindOne 12%N] |}).
Proof.
  split.
  - apply (get_by_id_found_or_null up (request "GET" (Some milk_id) no_body)
             "key" 10%N pantry).
    + repeat split. discriminate.
    + reflexivity.
    + discriminate.
    + reflexivity.
    + reflexivity.
  - apply (get_by_id_found_or_null up
             (request "GET" (Some "00000000000000000000000c") no_body)
             "key" 12%N pantry).
    + repeat split. discriminate.
    + reflexivity.
    + discriminate.
    + reflexivity.
    + reflexivity.
Defined.

(** C6 as worded fails: an [id] that is present but empty is treated as
    no [id] at all and the whole (here empty) collection comes back, and
    an [id] the identifier constructor refuses is answered 500; with no
    document in the collection, neither answer is success with [null]. *)
Lemma get_present_id_not_null :
  docs empty = [] /\
  id_param (request "GET" (Some "") no_body) = Some "" /\
  fst (fetch up (request "GET" (Some "") no_body) empty) =
    Ok (utils.reply (JArr [])) /\
  fst (fetch up (request "GET" (Some "xyz") no_body) empty) =
    Ok (utils.toError
          "Argument passed in must be a string of 24 hex characters" 500) /\
  fst (fetch up (request "GET" (Some "") no_body) empty) <>
    Ok (utils.reply JNull) /\
  fst (fetch up (request "GET" (Some "xyz") no_body) empty) <>
    Ok (utils.reply JNull).
Proof.
  repeat split; try reflexivity; vm_compute; discriminate.
Qed.

(** ** PATCH: the branches of the inner [try] *)

Lemma PATCH_bad_id env req e s :
  ObjectId env (itemID req) = Throw e ->
  PATCH env req s = (Ok (utils.toError "Internal Server Error" 500), s).
Proof.
  intros Ho. unfold PATCH, try_catch, bind, lift. rewrite Ho. reflexivity.
Qed.

Lemma PATCH_missing env req o s :
  ObjectId env (itemID req) = Ok o ->
  fault env (FindOne o) = None ->
  find_doc o (docs s) = None ->
  PATCH env req s =
  (Ok (utils.toError "Document not found" 404), record_call (FindOne o) s).
Proof.
  intros Ho Hf Hn. unfold PATCH, try_catch, bind, lift. rewrite Ho.
  unfold collection.findOne. rewrite (remote_ok _ _ _ _ Hf). simpl.
  rewrite Hn. reflexivity.
Qed.

Lemma PATCH_found env req o d s :
  ObjectId env (itemID req) = Ok o ->
  fault env (FindOne o) = None ->
  fault env (UpdateOne o [("purchased", js_not (get_prop "purchased" d))])
  = None ->
  find_doc o (docs s) = Some d ->
  PATCH env req s =
  (Ok (utils.reply (JObj [("matchedCount", count_of true)])),
   {| docs := update_first o
                (set_prop "purchased" (js_not (get_prop "purchased" d)))
                (docs s);
      calls := calls s ++
               [FindOne o;
                UpdateOne o [("purchased", js_not (get_prop "purchased" d))]]
   |}).
Proof.
  intros Ho Hf Hu Hd. unfold PATCH, try_catch, bind, lift. rewrite Ho.
  unfold collection.findOne. rewrite (remote_ok _ _ _ _ Hf). simpl.
  rewrite Hd. simpl.
  unfold collection.updateOne. rewrite (remote_ok _ _ _ _ Hu). simpl.
  unfold matched. rewrite Hd. simpl. rewrite <- app_assoc. reflexivity.
Qed.

Lemma DELETE_bad_id env req e s :
  ObjectId env (itemID req) = Throw e ->
  DELETE env req s = (Throw e, s).
Proof. intros Ho. unfold DELETE, bind, lift. rewrite Ho. reflexivity. Qed.

(** C4: a PATCH on the valid path, authenticated, whose [id] is looked up
    and names no document is answered 404 "Document not found"; the
    documents are as they were and the collection saw one call, the
    lookup. *)
Theorem patch_missing_404 (env : Env) (req : Request) (token : string)
  (o : oid) (st : store) :
  reaches_dispatch env req token ->
  method req = "PATCH" ->
  ObjectId env (itemID req) = Ok o ->
  fault env (FindOne o) = None ->
  find_doc o (docs st) = None ->
  fetch env req st =
  (Ok (utils.toError "Document not found" 404),
   {| docs := docs st; calls := calls st ++ [LogIn token; FindOne o] |}).
Proof.
  intros Hr Hm Ho Hf Hn.
  rewrite (fetch_dispatch env req token st Hr).
  erewrite guarded_dispatch_ok.
  2:{ rewrite (dispatch_method env req "PATCH" Hm). simpl.
      apply PATCH_missing; eassumption. }
  f_equal. unfold record_call at 1. f_equal. apply logged_in_calls.
Qed.

Lemma patch_missing_404_witness :
  find_doc 12%N (docs pantry) = None /\
  fetch up (request "PATCH" (Some "00000000000000000000000c") no_body) pantry =
  (Ok {| status := 404;
         body := JObj [("success", JBool false);
                       ("error", JStr "Document not found")] |},
   {| docs := [milk; eggs]; calls := [LogIn "key"; FindOne 12%N] |}).
Proof.
  split; [reflexivity|].
  apply (patch_missing_404 up
           (request "PATCH" (Some "00000000000000000000000c") no_body)
           "key" 12%N pantry).
  - repeat split. discriminate.
  - reflexivity.
  - reflexivity.
  - reflexivity.
  - reflexivity.
Defined.

(** C10: a PATCH or DELETE on the valid path, authenticated, whose [id]
    the identifier constructor throws on is answered 500: an absent or
    empty [id] reaches the constructor as the empty string; the PATCH
    answer is "Internal Server Error" (inner catch), the DELETE answer
    carries the constructor's message, or "Error with query." (outer
    catch).  No collection call is made. *)
Theorem bad_id_500 (env : Env) (req : Request) (token : string) (e : exn)
  (st : store) :
  reaches_dispatch env req token ->
  ObjectId env (itemID req) = Throw e ->
  (id_param req = None \/ id_param req = Some "" -> itemID req = "") /\
  (method req = "PATCH" ->
   fetch env req st =
   (Ok (utils.toError "Internal Server Error" 500),
    {| docs := docs st; calls := calls st ++ [LogIn token] |})) /\
  (method req = "DELETE" ->
   fetch env req st =
   (Ok (utils.toError (query_message e) 500),
    {| docs := docs st; calls := calls st ++ [LogIn token] |})) /\
  (method req = "PATCH" \/ method req = "DELETE" ->
   exists r st', fetch env req st = (Ok r, st') /\ status r = 500%Z).
Proof.
  intros Hr Ho.
  assert (Hpatch : method req = "PATCH" ->
      fetch env req st =
      (Ok (utils.toError "Internal Server Error" 500),
       {| docs := docs st; calls := calls st ++ [LogIn token] |})).
  { intros Hm. rewrite (fetch_dispatch env req token st Hr).
    apply guarded_dispatch_ok.
    rewrite (dispatch_method env req "PATCH" Hm). simpl.
    now apply (PATCH_bad_id env req e). }
  assert (Hdelete : method req = "DELETE" ->
      fetch env req st =
      (Ok (utils.toError (query_message e) 500),
       {| docs := docs st; calls := calls st ++ [LogIn token] |})).
  { intros Hm. rewrite (fetch_dispatch env req token st Hr).
    apply guarded_dispatch_throw.
    rewrite (dispatch_method env req "DELETE" Hm). simpl.
    now apply DELETE_bad_id. }
  repeat split; trivial.
  - unfold itemID. intros [-> | ->]; reflexivity.
  - intros [Hm | Hm]; [rewrite (Hpatch Hm) | rewrite (Hdelete Hm)];
      eexists; eexists; split; reflexivity.
Qed.

Lemma bad_id_500_witness :
  ObjectId up (itemID (request "PATCH" None no_body)) = Throw BSONTypeError /\
  fetch up (request "PATCH" None no_body) pantry =
  (Ok (utils.toError "Internal Server Error" 500),
   {| docs := [milk; eggs]; calls := [LogIn "key"] |}) /\
  fetch up (request "DELETE" (Some "milk") no_body) pantry =
  (Ok (utils.toError
         "Argument passed in must be a string of 24 hex characters" 500),
   {| docs := [milk; eggs]; calls := [LogIn "key"] |}).
Proof.
  split; [reflexivity|]. split.
  - assert (Hr : reaches_dispatch up (request "PATCH" None no_body) "key").
    { repeat split. discriminate. }
    apply (proj1 (proj2 (bad_id_500 up (request "PATCH" None no_body) "key"
                           BSONTypeError pantry Hr eq_refl))).
    reflexivity.
  - assert (Hr : reaches_dispatch up (request "DELETE" (Some "milk") no_body)
                   "key").
    { repeat split. discriminate. }
    apply (proj1 (proj2 (proj2
             (bad_id_500 up (request "DELETE" (Some "milk") no_body) "key"
                BSONTypeError pantry Hr eq_refl)))).
    reflexivity.
Defined.

(** ** Property tables and the collection under [$set] *)

Section PropertyTables.

Variables (k : string) (v : jsval).

Lemma get_prop_set_prop_same (d : object) : get_prop k (set_prop k v d) = v.
Proof.
  induction d as [|[k' v'] d IH]; simpl.
  - now rewrite String.eqb_refl.
  - destruct (String.eqb k k') eqn:E; simpl; rewrite E; auto.
Qed.

Lemma get_prop_set_prop_other (k0 : string) (d : object) :
  k0 <> k -> get_prop k0 (set_prop k v d) = get_prop k0 d.
Proof.
  intros Hne. induction d as [|[k' v'] d IH]; simpl.
  - now rewrite (eqb_false_of_neq _ _ Hne).
  - destruct (String.eqb k k') eqn:E; simpl.
    + apply String.eqb_eq in E. subst k'.
      now rewrite (eqb_false_of_neq _ _ Hne).
    + now rewrite IH.
Qed.

Lemma set_prop_twice (w : jsval) (d : object) :
  set_prop k w (set_prop k v d) = set_prop k w d.
Proof.
  induction d as [|[k' v'] d IH]; simpl.
  - now rewrite String.eqb_refl.
  - destruct (String.eqb k k') eqn:E; simpl; rewrite E; congruence.
Qed.

Lemma has_prop_of_defined (d : object) :
  defined (get_prop k d) = true -> has_prop k d = true.
Proof.
  induction d as [|[k' v'] d IH]; simpl; [discriminate|].
  destruct (String.eqb k k'); auto.
Qed.

Lemma set_prop_current (d : object) :
  has_prop k d = true -> set_prop k (get_prop k d) d = d.
Proof.
  induction d as [|[k' v'] d IH]; simpl; [discriminate|].
  destruct (String.eqb k k'); intros H; [reflexivity|].
  now rewrite IH.
Qed.

Lemma has_id_set_prop (o : oid) (d : object) :
  k <> "_id" -> has_id o (set_prop k v d) = has_id o d.
Proof.
  intros Hne. unfold has_id.
  rewrite get_prop_set_prop_other; [reflexivity|congruence].
Qed.

End PropertyTables.

Section UpdateFirst.

Variables (o : oid) (f : object -> object).
Hypothesis keeps_id : forall d, has_id o (f d) = has_id o d.

Lemma find_doc_update_first (ds : list object) (d : object) :
  find_doc o ds = Some d -> find_doc o (update_first o f ds) = Some (f d).
Proof.
  induction ds as [|d0 ds IH]; simpl; [discriminate|].
  destruct (has_id o d0) eqn:E; simpl.
  - intros [= ->]. now rewrite keeps_id, E.
  - rewrite E. exact IH.
Qed.

Lemma update_first_twice (g : object -> object) (ds : list object) :
  update_first o g (update_first o f ds)
  = update_first o (fun d => g (f d)) ds.
Proof.
  induction ds as [|d0 ds IH]; simpl; [reflexivity|].
  destruct (has_id o d0) eqn:E; simpl.
  - now rewrite keeps_id, E.
  - now rewrite E, IH.
Qed.

End UpdateFirst.

Lemma update_first_fixed (o : oid) (f : object -> object) (ds : list object)
  (d : object) :
  find_doc o ds = Some d -> f d = d -> update_first o f ds = ds.
Proof.
  induction ds as [|d0 ds IH]; simpl; [reflexivity|].
  destruct (has_id o d0).
  - intros [= ->] ->. reflexivity.
  - intros H1 H2. now rewrite IH.
Qed.

Lemma update_first_frame (o : oid) (k k0 : string) (v : jsval)
  (ds : list object) :
  k0 <> k ->
  map (get_prop k0) (update_first o (set_prop k v) ds) = map (get_prop k0) ds.
Proof.
  intros Hne. induction ds as [|d0 ds IH]; simpl; [reflexivity|].
  destruct (has_id o d0); simpl.
  - now rewrite get_prop_set_prop_other.
  - now rewrite IH.
Qed.

(** ** PATCH on an existing document *)

Lemma fetch_PATCH_found env req token o d st :
  reaches_dispatch env req token ->
  method req = "PATCH" ->
  ObjectId env (itemID req) = Ok o ->
  fault env (FindOne o) = None ->
  (forall u, fault env (UpdateOne o u) = None) ->
  find_doc o (docs st) = Some d ->
  fetch env req st =
  (Ok (utils.reply (JObj [("matchedCount", count_of true)])),
   {| docs := update_first o (set_prop "purchased" (toggled d)) (docs st);
      calls := calls st ++
               [LogIn token; FindOne o;
                UpdateOne o [("purchased", toggled d)]] |}).
Proof.
  intros Hr Hm Ho Hf Hu Hd.
  rewrite (fetch_dispatch env req token st Hr).
  erewrite guarded_dispatch_ok.
  2:{ rewrite (dispatch_method env req "PATCH" Hm). simpl.
      apply (PATCH_found env req o d); auto. }
  unfold toggled. simpl. now rewrite <- app_assoc.
Qed.

(** C5, as the code has it: a successful PATCH on an existing document
    writes one field, [purchased], with the negation of the truthiness of
    its current value, and leaves every other field of every document
    (name, quantity, identifier) as it was.  After two successful PATCHes
    [purchased] is the boolean truthiness of the original value; the
    collection is back to what it was when that value was a boolean. *)
Theorem patch_toggles_purchased (env : Env) (req : Request) (token : string)
  (o : oid) (d : object) (st : store) :
  reaches_dispatch env req token ->
  method req = "PATCH" ->
  ObjectId env (itemID req) = Ok o ->
  fault env (FindOne o) = None ->
  (forall u, fault env (UpdateOne o u) = None) ->
  find_doc o (docs st) = Some d ->
  let flipped := JBool (negb (truthy (get_prop "purchased" d))) in
  let once := snd (fetch env req st) in
  let twice := snd (fetch env req once) in
  calls once =
    (calls st ++ [LogIn token; FindOne o;
                  UpdateOne o [("purchased", flipped)]])%list /\
  docs once = update_first o (set_prop "purchased" flipped) (docs st) /\
  (forall k, k <> "purchased" ->
     map (get_prop k) (docs once) = map (get_prop k) (docs st)) /\
  (exists d2, find_doc o (docs twice) = Some d2 /\
     get_prop "purchased" d2 = JBool (truthy (get_prop "purchased" d)) /\
     forall k, k <> "purchased" -> get_prop k d2 = get_prop k d) /\
  (forall b, get_prop "purchased" d = JBool b -> docs twice = docs st).
Proof.
  intros Hr Hm Ho Hf Hu Hd flipped once twice.
  assert (Hkeep : forall w x, has_id o (set_prop "purchased" w x) = has_id o x).
  { intros w x. apply has_id_set_prop. discriminate. }
  assert (E1 : once =
     {| docs := update_first o (set_prop "purchased" flipped) (docs st);
        calls := calls st ++
                 [LogIn token; FindOne o;
                  UpdateOne o [("purchased", flipped)]] |}).
  { unfold once. now rewrite (fetch_PATCH_found env req token o d st). }
  assert (Hd1 : find_doc o (docs once)
                = Some (set_prop "purchased" flipped d)).
  { rewrite E1. simpl. apply find_doc_update_first; auto. }
  assert (E2 : docs twice =
     update_first o
       (set_prop "purchased"
          (JBool (truthy (get_prop "purchased" d)))) (docs st)).
  { unfold twice.
    rewrite (fetch_PATCH_found env req token o _ once Hr Hm Ho Hf Hu Hd1).
    simpl. unfold toggled, js_not.
    rewrite get_prop_set_prop_same. simpl truthy. rewrite negb_involutive.
    rewrite E1. simpl docs. rewrite update_first_twice by auto.
    clear. induction (docs st) as [|d0 ds IH]; simpl; [reflexivity|].
    destruct (has_id o d0); [now rewrite set_prop_twice | now rewrite IH]. }
  split; [|split; [|split; [|split]]].
  - now rewrite E1.
  - now rewrite E1.
  - intros k Hk. rewrite E1. simpl. now apply update_first_frame.
  - exists (set_prop "purchased" (JBool (truthy (get_prop "purchased" d))) d).
    rewrite E2. repeat split.
    + apply find_doc_update_first; auto.
    + apply get_prop_set_prop_same.
    + intros k Hk. now apply get_prop_set_prop_other.
  - intros b Hb. rewrite E2. apply (update_first_fixed o _ (docs st) d Hd).
    rewrite Hb. simpl. rewrite <- Hb. apply set_prop_current.
    apply has_prop_of_defined. now rewrite Hb.
Qed.

Lemma patch_toggles_purchased_witness :
  find_doc 10%N (docs pantry) = Some milk /\
  let toggle := request "PATCH" (Some milk_id) no_body in
  let once := snd (fetch up toggle pantry) in
  let twice := snd (fetch up toggle once) in
  map (get_prop "purchased") (docs once) = [JBool true; JBool true] /\
  map (get_prop "name") (docs once) = [JStr "Milk"; JStr "Eggs"] /\
  docs twice = [milk; eggs].
Proof.
  split; [reflexivity|].
  assert (Hr : reaches_dispatch up (request "PATCH" (Some milk_id) no_body)
                 "key").
  { repeat split. discriminate. }
  pose proof (patch_toggles_purchased up
                (request "PATCH" (Some milk_id) no_body) "key" 10%N milk
                pantry Hr eq_refl eq_refl eq_refl (fun _ => eq_refl) eq_refl)
    as (_ & H2 & H3 & _ & H5).
  intros toggle once twice. split; [|split].
  - unfold once, toggle. rewrite H2. reflexivity.
  - unfold once, toggle. rewrite (H3 "name"); [reflexivity | discriminate].
  - apply (H5 false). reflexivity.
Defined.

(** C5 as worded fails on a document whose [purchased] is not a boolean,
    such as one this very handler stores on a POST with
    [purchased: "yes"]: two successful PATCHes leave [true], not
    ["yes"]. *)
Lemma patch_twice_not_restoring :
  let tea := request "POST" None
               (Ok (JObj [("name", JStr "Tea"); ("purchased", JStr "yes");
                          ("quantity", JStr "1")])) in
  let toggle := request "PATCH" (Some "000000000000000000000001") no_body in
  let s0 := snd (fetch up tea empty) in
  let s1 := snd (fetch up toggle s0) in
  let s2 := snd (fetch up toggle s1) in
  map (get_prop "purchased") (docs s0) = [JStr "yes"] /\
  fst (fetch up toggle s0)
  = Ok (utils.reply (JObj [("matchedCount", count_of true)])) /\
  fst (fetch up toggle s1)
  = Ok (utils.reply (JObj [("matchedCount", count_of true)])) /\
  map (get_prop "purchased") (docs s2) = [JBool true] /\
  docs s2 <> docs s0.
Proof.
  repeat split; try reflexivity. vm_compute. discriminate.
Qed.

(** ** POST: what gets inserted *)

Lemma get_prop_absent (k : string) (o : object) :
  has_prop k o = false -> get_prop k o = JUndefined.
Proof.
  induction o as [|[k' v'] o IH]; simpl; [reflexivity|].
  destruct (String.eqb k k'); [discriminate | exact IH].
Qed.

Lemma POST_calls env req v n p q s :
  json req = Ok v -> destructure v = Ok (n, p, q) ->
  calls (snd (POST env req s)) = (calls s ++ [InsertOne (newDocument n p q)])%list
  /\ (fault env (InsertOne (newDocument n p q)) = None ->
      POST env req s =
      (Ok (utils.reply (JObj [("insertedId", JOid (fresh_id (docs s)))])),
       {| docs := docs s ++
                  [("_id", JOid (fresh_id (docs s))) :: newDocument n p q];
          calls := calls s ++ [InsertOne (newDocument n p q)] |})).
Proof.
  intros Hj Hd. unfold POST, bind, lift. rewrite Hj, Hd.
  unfold collection.insertOne. split.
  - unfold remote.
    destruct (fault env (InsertOne (newDocument n p q))); reflexivity.
  - intros Hf. rewrite (remote_ok _ _ _ _ Hf). reflexivity.
Qed.

(** C3, as the code has it: on a POST that reaches the insert, the
    document handed to [insertOne] has [purchased] false when the body's
    [purchased] is omitted or falsy, and otherwise the body's own value,
    untouched: a boolean when the body gave a boolean, and not one when it
    gave anything else truthy. *)
Theorem post_purchased_default (env : Env) (req : Request) (token : string)
  (v name purchased quantity : jsval) (st : store) :
  reaches_dispatch env req token ->
  method req = "POST" ->
  json req = Ok v ->
  destructure v = Ok (name, purchased, quantity) ->
  let d := newDocument name purchased quantity in
  calls (snd (fetch env req st)) = (calls st ++ [LogIn token; InsertOne d])%list
  /\ purchased = member "purchased" v
  /\ (forall o, v = JObj o -> has_prop "purchased" o = false ->
      get_prop "purchased" d = JBool false)
  /\ (truthy purchased = false -> get_prop "purchased" d = JBool false)
  /\ (truthy purchased = true -> get_prop "purchased" d = purchased)
  /\ (forall b, purchased = JBool b -> get_prop "purchased" d = JBool b).
Proof.
  intros Hr Hm Hj Hd d.
  assert (Hp : purchased = member "purchased" v).
  { destruct v; simpl in Hd; try discriminate; now inversion Hd. }
  split; [|split; [exact Hp|split; [|split; [|split]]]].
  - rewrite (fetch_dispatch env req token st Hr).
    destruct (POST_calls env req v name purchased quantity
                (logged_in token st) Hj Hd) as [Hc _].
    unfold guarded_dispatch, try_catch.
    rewrite (dispatch_method env req "POST" Hm). simpl.
    destruct (POST env req (logged_in token st)) as [[r | e] s'];
      simpl in *; rewrite Hc, <- app_assoc; reflexivity.
  - intros o -> Ho. simpl. unfold js_or. rewrite Hp. simpl.
    now rewrite (get_prop_absent _ _ Ho).
  - intros Hf. simpl. unfold js_or. now rewrite Hf.
  - intros Ht. simpl. unfold js_or. now rewrite Ht.
  - intros b ->. simpl. destruct b; reflexivity.
Qed.

Lemma post_purchased_default_witness :
  let body := JObj [("name", JStr "Milk"); ("quantity", JStr "1L")] in
  let d := newDocument (JStr "Milk") JUndefined (JStr "1L") in
  destructure body = Ok (JStr "Milk", JUndefined, JStr "1L") /\
  calls (snd (fetch up (request "POST" None (Ok body)) empty))
  = [LogIn "key"; InsertOne d] /\
  get_prop "purchased" d = JBool false.
Proof.
  intros body d.
  assert (Hr : reaches_dispatch up (request "POST" None (Ok body)) "key").
  { repeat split. discriminate. }
  pose proof (post_purchased_default up (request "POST" None (Ok body)) "key"
                body (JStr "Milk") JUndefined (JStr "1L") empty
                Hr eq_refl eq_refl eq_refl) as (H1 & _ & H3 & _).
  split; [reflexivity|]. split.
  - exact H1.
  - apply (H3 [("name", JStr "Milk"); ("quantity", JStr "1L")]); reflexivity.
Defined.

(** C3 as worded fails: a truthy [purchased] that is not a boolean is
    inserted as it is. *)
Lemma post_purchased_not_boolean :
  let body := JObj [("name", JStr "Tea"); ("purchased", JStr "yes");
                    ("quantity", JStr "1")] in
  let after := snd (fetch up (request "POST" None (Ok body)) empty) in
  calls after =
    [LogIn "key";
     InsertOne [("name", JStr "Tea"); ("purchased", JStr "yes");
                ("quantity", JStr "1")]] /\
  map (get_prop "purchased") (docs after) = [JStr "yes"] /\
  is_boolean (JStr "yes") = false.
Proof. repeat split. Qed.

(** ** PUT: the update object *)

(** The three guarded assignments change nothing: the literal already
    holds every field. *)
Lemma updateObject_literal (name purchased quantity : jsval) :
  updateObject name purchased quantity =
  [("name", name); ("purchased", purchased); ("quantity", quantity);
   ("_id", JUndefined)].
Proof.
  unfold updateObject.
  destruct (defined name), (defined purchased), (defined quantity);
    reflexivity.
Qed.

Lemma PUT_update env req v n p q o s :
  json req = Ok v -> destructure v = Ok (n, p, q) ->
  ObjectId env (itemID req) = Ok o ->
  calls (snd (PUT env req s))
  = (calls s ++ [UpdateOne o [("name", n); ("purchased", p); ("quantity", q);
                              ("_id", JUndefined)]])%list.
Proof.
  intros Hj Hd Ho. unfold PUT, try_catch, bind, lift.
  rewrite Hj, Hd, Ho, updateObject_literal.
  unfold collection.updateOne, remote.
  destruct (fault env _); reflexivity.
Qed.

(** C1, at the spec's own example: a PUT with body [{"quantity":"2L"}] on
    an existing id hands [$set] an object that has, besides [quantity],
    the properties [name], [purchased] and [_id], each [undefined]. *)
Theorem put_quantity_only_update_object :
  let body := JObj [("quantity", JStr "2L")] in
  let u := [("name", JUndefined); ("purchased", JUndefined);
            ("quantity", JStr "2L"); ("_id", JUndefined)] in
  find_doc 10%N (docs pantry) = Some milk /\
  calls (snd (fetch up (request "PUT" (Some milk_id) (Ok body)) pantry))
  = [LogIn "key"; UpdateOne 10%N u] /\
  updateObject (member "name" body) (member "purchased" body)
    (member "quantity" body) = u /\
  has_prop "name" u = true /\ has_prop "purchased" u = true /\
  has_prop "_id" u = true.
Proof. repeat split. Qed.

(** ** The outer [try] *)

Lemma dispatch_raises env req e s :
  raised_outside_inner env req e ->
  exists s', dispatch env req s = (Throw e, s').
Proof.
  intros H; destruct H as
    [e Hm Hi Ho | o e Hm Hi Ho Hf | e Hm Hi Hf | e Hm Hj | v e Hm Hj Hd
    | v n p q e Hm Hj Hd Hf | e Hm Ho | o e Hm Ho Hf];
    rewrite (dispatch_method env req _ Hm); simpl.
  - unfold GET. rewrite (eqb_false_of_neq _ _ Hi). simpl.
    unfold bind, lift. rewrite Ho. eauto.
  - unfold GET. rewrite (eqb_false_of_neq _ _ Hi). simpl.
    unfold bind, lift. rewrite Ho. unfold collection.findOne.
    rewrite (remote_fault _ _ _ _ _ Hf). eauto.
  - unfold GET. rewrite Hi. simpl.
    unfold bind, collection.find. rewrite (remote_fault _ _ _ _ _ Hf). eauto.
  - unfold POST, bind, lift. rewrite Hj. eauto.
  - unfold POST, bind, lift. rewrite Hj, Hd. eauto.
  - unfold POST, bind, lift. rewrite Hj, Hd. unfold collection.insertOne.
    rewrite (remote_fault _ _ _ _ _ Hf). eauto.
  - unfold DELETE, bind, lift. rewrite Ho. eauto.
  - unfold DELETE, bind, lift. rewrite Ho. unfold collection.deleteOne.
    rewrite (remote_fault _ _ _ _ _ Hf). eauto.
Qed.

(** C2, as the code has it: for a request that passes the path and
    authentication checks, once the collection handle is taken the
    handler always returns a response, and an exception raised under the
    outer [try] outside the PATCH/PUT inner handlers (GET's constructor,
    find or findOne, POST's parsing or insert, DELETE's constructor or
    delete) becomes a 500 carrying the exception's message when it has a
    non-empty one and "Error with query." otherwise.  Taking the handle
    itself sits between the two [try] blocks: an exception raised there
    leaves the handler. *)
Theorem outer_catch_500 (env : Env) (req : Request) (token : string)
  (st : store) :
  on_resource req ->
  authenticated env req token ->
  (open_collection env = None ->
   (exists r st', fetch env req st = (Ok r, st')) /\
   (forall e, raised_outside_inner env req e ->
      exists st',
        fetch env req st = (Ok (utils.toError (query_message e) 500), st')))
  /\ (forall e, open_collection env = Some e ->
        fetch env req st = (Throw e, logged_in token st))
  /\ (forall e m, message e = Some m -> m <> "" -> query_message e = m)
  /\ (forall e, message e = None \/ message e = Some "" ->
        query_message e = "Error with query.").
Proof.
  intros Hp (Ha & Ht & Hl).
  split; [|split; [|split]].
  - intros Ho.
    assert (Hr : reaches_dispatch env req token) by (repeat split; assumption).
    rewrite (fetch_dispatch env req token st Hr). split.
    + apply guarded_dispatch_returns.
    + intros e He.
      destruct (dispatch_raises env req e (logged_in token st) He) as [s' Hs].
      exists s'. now apply guarded_dispatch_throw.
  - intros e Ho. rewrite (fetch_serve env req token st Hp Ha Ht).
    now apply serve_no_handle.
  - intros e m Hm Hne. unfold query_message. rewrite Hm.
    now rewrite (eqb_false_of_neq _ _ Hne).
  - intros e [Hm | Hm]; unfold query_message; rewrite Hm; reflexivity.
Qed.

Lemma outer_catch_500_witness :
  on_resource (request "GET" None no_body) /\
  authenticated (down (Exn (Some "socket hang up")))
    (request "GET" None no_body) "key" /\
  (exists st',
     fetch (down (Exn (Some "socket hang up"))) (request "GET" None no_body)
       pantry =
     (Ok (utils.toError "socket hang up" 500), st')) /\
  (exists st',
     fetch (down (Exn None)) (request "DELETE" (Some milk_id) no_body)
       pantry =
     (Ok (utils.toError "Error with query." 500), st')).
Proof.
  assert (Hp : forall m i, on_resource (request m i no_body))
    by (intros; reflexivity).
  assert (Ha : forall e m i, authenticated (down e) (request m i no_body) "key").
  { intros. repeat split. discriminate. }
  split; [apply Hp|]. split; [apply Ha|]. split.
  - apply (proj2 (proj1 (outer_catch_500 (down (Exn (Some "socket hang up")))
                           (request "GET" None no_body) "key" pantry
                           (Hp _ _) (Ha _ _ _)) eq_refl)
             (Exn (Some "socket hang up"))).
    apply in_GET_find; reflexivity.
  - apply (proj2 (proj1 (outer_catch_500 (down (Exn None))
                           (request "DELETE" (Some milk_id) no_body) "key"
                           pantry (Hp _ _) (Ha _ _ _)) eq_refl)
             (Exn None)).
    apply (in_DELETE_deleteOne _ _ 10%N); reflexivity.
Defined.

(** C2 as worded fails at the collection handle: the statement that takes
    it is under neither [try], so an exception raised there, on a request
    that passed the path and authentication checks, is not turned into a
    response. *)
Lemma handle_exception_escapes :
  on_resource (request "GET" None no_body) /\
  authenticated no_handle (request "GET" None no_body) "key" /\
  fetch no_handle (request "GET" None no_body) pantry =
  (Throw (Exn (Some "no such service")),
   {| docs := [milk; eggs]; calls := [LogIn "key"] |}) /\
  forall r st',
    fetch no_handle (request "GET" None no_body) pantry <> (Ok r, st').
Proof.
  split; [reflexivity|]. split; [repeat split; discriminate|].
  split; [reflexivity|]. intros r st'. vm_compute. discriminate.
Qed.

(** ** The path check, spelled out *)

Lemma strip_trailing_slash_cases (s : string) :
  strip_trailing_slash s = s \/ s = strip_trailing_slash s ++ "/".
Proof.
  induction s as [|c rest IH]; [now left|].
  destruct rest as [|c' r].
  - simpl. destruct (Ascii.eqb c slash) eqn:E; [right | now left].
    apply Ascii.eqb_eq in E. now subst c.
  - change (strip_trailing_slash (String c (String c' r)))
      with (String c (strip_trailing_slash (String c' r))).
    set (t := strip_trailing_slash (String c' r)) in *.
    destruct IH as [IH | IH]; [left | right].
    + now rewrite IH.
    + change (String c t ++ "/") with (String c (t ++ "/")).
      now rewrite <- IH.
Qed.

Lemma strip_trailing_slash_app (s : string) :
  strip_trailing_slash (s ++ "/") = s.
Proof.
  induction s as [|c rest IH]; [reflexivity|].
  change (String c rest ++ "/") with (String c (rest ++ "/")).
  destruct (rest ++ "/") as [|c' r] eqn:E.
  - destruct rest; discriminate.
  - change (strip_trailing_slash (String c (String c' r)))
      with (String c (strip_trailing_slash (String c' r))).
    now rewrite IH.
Qed.

(** X1: the path check lets through exactly two spellings of the
    pathname, [/api/shopping_list] and [/api/shopping_list/]: the regular
    expression removes one slash at the very end and nothing else, so a
    pathname ending in two slashes keeps one and is refused. *)
Theorem resource_pathnames (p : string) :
  (strip_trailing_slash p = resource <->
   p = "/api/shopping_list" \/ p = "/api/shopping_list/") /\
  strip_trailing_slash (p ++ "/") = p /\
  strip_trailing_slash (p ++ "//") = p ++ "/".
Proof.
  split; [split|split].
  - intros H. destruct (strip_trailing_slash_cases p) as [E | E].
    + left. now rewrite <- E.
    + right. now rewrite E, H.
  - intros [-> | ->]; reflexivity.
  - apply strip_trailing_slash_app.
  - replace (p ++ "//") with ((p ++ "/") ++ "/").
    + apply strip_trailing_slash_app.
    + induction p as [|c r IH]; [reflexivity|]. simpl. now rewrite IH.
Qed.

(** ** GET without an identifier *)

Lemma GET_all env req s :
  itemID req = "" -> fault env Find = None ->
  GET env req s =
  (Ok (utils.reply (JArr (map JObj (docs s)))), record_call Find s).
Proof.
  intros Hi Hf. unfold GET. rewrite Hi. simpl.
  unfold bind, collection.find. rewrite (remote_ok _ _ _ _ Hf). reflexivity.
Qed.

(** X2: a GET on the valid path, authenticated, whose [id] is absent or
    empty, is answered with success and the array of all the documents of
    the collection, in the order the store yields them (the empty array
    for an empty collection), provided [find] goes through; the
    collection is only read, with that one call. *)
Theorem get_all_documents (env : Env) (req : Request) (token : string)
  (st : store) :
  reaches_dispatch env req token ->
  method req = "GET" ->
  id_param req = None \/ id_param req = Some "" ->
  fault env Find = None ->
  fetch env req st =
  (Ok (utils.reply (JArr (map JObj (docs st)))),
   {| docs := docs st; calls := calls st ++ [LogIn token; Find] |}).
Proof.
  intros Hr Hm Hi Hf.
  assert (Hid : itemID req = "").
  { unfold itemID. destruct Hi as [-> | ->]; reflexivity. }
  rewrite (fetch_dispatch env req token st Hr).
  erewrite guarded_dispatch_ok.
  2:{ rewrite (dispatch_method env req "GET" Hm). simpl.
      apply GET_all; assumption. }
  f_equal. unfold record_call at 1. f_equal. apply logged_in_calls.
Qed.

Lemma get_all_documents_witness :
  fetch up (request "GET" None no_body) pantry =
  (Ok (utils.reply (JArr [JObj milk; JObj eggs])),
   {| docs := [milk; eggs]; calls := [LogIn "key"; Find] |}) /\
  fetch up (request "GET" (Some "") no_body) empty =
  (Ok (utils.reply (JArr [])),
   {| docs := []; calls := [LogIn "key"; Find] |}).
Proof.
  split.
  - apply (get_all_documents up (request "GET" None no_body) "key" pantry).
    + repeat split. discriminate.
    + reflexivity.
    + left. reflexivity.
    + reflexivity.
  - apply (get_all_documents up (request "GET" (Some "") no_body) "key"
             empty).
    + repeat split. discriminate.
    + reflexivity.
    + right. reflexivity.
    + reflexivity.
Defined.

(** ** What leaves the handler *)



(** ** The call log, compositionally *)

Section Emits.

Variable P : call -> bool.

Lemma emits_ret {A} (a : A) : emits P 0 (ret a).
Proof. intros s. exists []. simpl. now rewrite app_nil_r. Qed.

Lemma emits_lift {A} (r : result A) : emits P 0 (lift r).
Proof. intros s. exists []. simpl. now rewrite app_nil_r. Qed.

Lemma emits_remote {A} env c (op : list object -> A * list object) :
  P c = true -> emits P 1 (remote env c op).
Proof.
  intros Hc s. exists [c]. unfold remote.
  destruct (fault env c); [|destruct (op (docs (record_call c s)))];
    simpl; rewrite Hc; auto.
Qed.

Lemma emits_weaken {A} n n' (m : M A) :
  n <= n' -> emits P n m -> emits P n' m.
Proof.
  intros Hn Hm s. destruct (Hm s) as (cs & H1 & H2 & H3).
  exists cs. repeat split; trivial. lia.
Qed.

Lemma emits_bind {A B} n1 n2 (m : M A) (k : A -> M B) :
  emits P n1 m -> (forall a, emits P n2 (k a)) ->
  emits P (n1 + n2) (bind m k).
Proof.
  intros Hm Hk s. destruct (Hm s) as (cs1 & H1 & H2 & H3). unfold bind.
  destruct (m s) as [[a | e] s1]; simpl in H1.
  - destruct (Hk a s1) as (cs2 & K1 & K2 & K3).
    exists (cs1 ++ cs2)%list. rewrite K1, H1, <- app_assoc.
    rewrite length_app, forallb_app, H3, K3. repeat split; trivial. lia.
  - exists cs1. simpl. repeat split; trivial. lia.
Qed.

Lemma emits_try_catch {A} n1 n2 (m : M A) (h : exn -> M A) :
  emits P n1 m -> (forall e, emits P n2 (h e)) ->
  emits P (n1 + n2) (try_catch m h).
Proof.
  intros Hm Hh s. destruct (Hm s) as (cs1 & H1 & H2 & H3). unfold try_catch.
  destruct (m s) as [[a | e] s1]; simpl in H1.
  - exists cs1. simpl. repeat split; trivial. lia.
  - destruct (Hh e s1) as (cs2 & K1 & K2 & K3).
    exists (cs1 ++ cs2)%list. rewrite K1, H1, <- app_assoc.
    rewrite length_app, forallb_app, H3, K3. repeat split; trivial. lia.
Qed.

End Emits.

Lemma GET_emits env req : emits is_read 1 (GET env req).
Proof.
  unfold GET. destruct (negb (String.eqb (itemID req) "")).
  - apply (emits_bind _ 0 1); [apply emits_lift|]. intros o.
    apply (emits_bind _ 1 0); [now apply emits_remote|].
    intros found. apply emits_ret.
  - apply (emits_bind _ 1 0); [now apply emits_remote|].
    intros found. apply emits_ret.
Qed.

Lemma POST_emits env req : emits is_collection_call 1 (POST env req).
Proof.
  unfold POST.
  apply (emits_bind _ 0 1); [apply emits_lift|]. intros parsed.
  apply (emits_bind _ 0 1); [apply emits_lift|]. intros [[n p] q].
  apply (emits_bind _ 1 0); [now apply emits_remote|].
  intros inserted. apply emits_ret.
Qed.

Lemma PATCH_emits env req : emits is_collection_call 2 (PATCH env req).
Proof.
  unfold PATCH. apply (emits_try_catch _ 2 0); [|intros e; apply emits_ret].
  apply (emits_bind _ 0 2); [apply emits_lift|]. intros o.
  apply (emits_bind _ 1 1); [now apply emits_remote|]. intros existing.
  destruct (truthy existing).
  - apply (emits_bind _ 0 1); [apply emits_lift|]. intros o'.
    apply (emits_bind _ 1 0); [now apply emits_remote|].
    intros result. apply emits_ret.
  - apply (emits_weaken _ 0); [lia | apply emits_ret].
Qed.

Lemma PUT_emits env req : emits is_collection_call 1 (PUT env req).
Proof.
  unfold PUT. apply (emits_try_catch _ 1 0); [|intros e; apply emits_ret].
  apply (emits_bind _ 0 1); [apply emits_lift|]. intros parsed.
  apply (emits_bind _ 0 1); [apply emits_lift|]. intros [[n p] q].
  apply (emits_bind _ 0 1); [apply emits_lift|]. intros o.
  apply (emits_bind _ 1 0); [now apply emits_remote|].
  intros result. apply emits_ret.
Qed.

Lemma DELETE_emits env req : emits is_collection_call 1 (DELETE env req).
Proof.
  unfold DELETE.
  apply (emits_bind _ 0 1); [apply emits_lift|]. intros o.
  apply (emits_bind _ 1 0); [now apply emits_remote|].
  intros deleted. apply emits_ret.
Qed.

Lemma emits_impl {A} (P Q : call -> bool) n (m : M A) :
  (forall c, P c = true -> Q c = true) -> emits P n m -> emits Q n m.
Proof.
  intros HPQ Hm s. destruct (Hm s) as (cs & H1 & H2 & H3).
  exists cs. repeat split; trivial.
  rewrite forallb_forall in *. auto.
Qed.

Lemma dispatch_emits env req : emits is_collection_call 2 (dispatch env req).
Proof.
  unfold dispatch.
  destruct (String.eqb (method req) "GET").
  { apply (emits_weaken _ 1); [lia|].
    apply (emits_impl is_read); [now intros []|]. apply GET_emits. }
  destruct (String.eqb (method req) "POST").
  { apply (emits_weaken _ 1); [lia | apply POST_emits]. }
  destruct (String.eqb (method req) "PATCH"); [apply PATCH_emits|].
  destruct (String.eqb (method req) "PUT").
  { apply (emits_weaken _ 1); [lia | apply PUT_emits]. }
  destruct (String.eqb (method req) "DELETE").
  { apply (emits_weaken _ 1); [lia | apply DELETE_emits]. }
  apply (emits_weaken _ 0); [lia | apply emits_ret].
Qed.

(** What [serve] adds to the log: the login, then what the dispatch adds,
    if it is reached. *)
Lemma serve_calls (P : call -> bool) n env req token st :
  emits P n (dispatch env req) ->
  exists rest,
    calls (snd (serve env req token st))
    = (calls st ++ LogIn token :: rest)%list /\
    length rest <= n /\ forallb P rest = true /\
    (rest <> [] -> logIn env token = None /\ open_collection env = None).
Proof.
  intros Hd.
  destruct (logIn env token) as [e1|] eqn:El.
  { rewrite (serve_rejected env req token e1 st El).
    exists []. split; [reflexivity|]. split; [simpl; lia|].
    split; [reflexivity|]. intros H. now destruct H. }
  destruct (open_collection env) as [e2|] eqn:Eo.
  { rewrite (serve_no_handle env req token e2 st El Eo).
    exists []. split; [reflexivity|]. split; [simpl; lia|].
    split; [reflexivity|]. intros H. now destruct H. }
  rewrite (serve_dispatch env req token st El Eo).
  assert (Hg : emits P (n + 0) (guarded_dispatch env req)).
  { apply emits_try_catch; [exact Hd | intros e; apply emits_ret]. }
  destruct (Hg (logged_in token st)) as (cs & H1 & H2 & H3).
  exists cs. rewrite H1. simpl. rewrite <- app_assoc.
  repeat split; trivial. lia.
Qed.

(** X4: what one request costs.  Whatever the request and the
    collaborators, [fetch] only appends to the call log, and appends
    either nothing or one login with the request's own non-empty key,
    followed by at most two calls on the collection; the collection is
    called only if the path is valid, the login has succeeded and the
    handle has been taken. *)
Theorem calls_per_request (env : Env) (req : Request) (st : store) :
  calls (snd (fetch env req st)) = calls st \/
  exists token rest,
    calls (snd (fetch env req st)) = (calls st ++ LogIn token :: rest)%list /\
    authorization req = Some token /\ token <> "" /\ on_resource req /\
    length rest <= 2 /\ forallb is_collection_call rest = true /\
    (rest <> [] -> logIn env token = None /\ open_collection env = None).
Proof.
  unfold fetch, on_resource.
  destruct (String.eqb (strip_trailing_slash (pathname req)) resource) eqn:Ep;
    simpl; [|now left].
  apply String.eqb_eq in Ep.
  destruct (authorization req) as [token|] eqn:Ea; [|now left].
  destruct (String.eqb token "") eqn:Et; [now left|].
  apply String.eqb_neq in Et. right.
  destruct (serve_calls is_collection_call 2 env req token st
              (dispatch_emits env req)) as (rest & H1 & H2 & H3 & H4).
  exists token, rest. repeat split; trivial; now apply H4.
Qed.

(** ** GET only reads *)

Section KeepsDocs.

Lemma keeps_docs_ret {A} (a : A) : keeps_docs (ret a).
Proof. now intros s. Qed.

Lemma keeps_docs_lift {A} (r : result A) : keeps_docs (lift r).
Proof. now intros s. Qed.

Lemma keeps_docs_bind {A B} (m : M A) (k : A -> M B) :
  keeps_docs m -> (forall a, keeps_docs (k a)) -> keeps_docs (bind m k).
Proof.
  intros Hm Hk s. unfold bind. specialize (Hm s).
  destruct (m s) as [[a | e] s1]; simpl in *; [|exact Hm].
  now rewrite Hk.
Qed.

Lemma keeps_docs_try_catch {A} (m : M A) (h : exn -> M A) :
  keeps_docs m -> (forall e, keeps_docs (h e)) -> keeps_docs (try_catch m h).
Proof.
  intros Hm Hh s. unfold try_catch. specialize (Hm s).
  destruct (m s) as [[a | e] s1]; simpl in *; [exact Hm|].
  now rewrite Hh.
Qed.

Lemma keeps_docs_remote {A} env c (op : list object -> A * list object) :
  (forall ds, snd (op ds) = ds) -> keeps_docs (remote env c op).
Proof.
  intros Hop s. unfold remote. destruct (fault env c); [reflexivity|].
  simpl. specialize (Hop (docs s)). destruct (op (docs s)). exact Hop.
Qed.

End KeepsDocs.

Lemma GET_keeps_docs env req : keeps_docs (GET env req).
Proof.
  unfold GET. destruct (negb (String.eqb (itemID req) "")).
  - apply keeps_docs_bind; [apply keeps_docs_lift|]. intros o.
    apply keeps_docs_bind; [apply keeps_docs_remote; intros ds; reflexivity|].
    intros found. apply keeps_docs_ret.
  - apply keeps_docs_bind; [apply keeps_docs_remote; intros ds; reflexivity|].
    intros found. apply keeps_docs_ret.
Qed.

Lemma fetch_keeps_docs env req :
  keeps_docs (dispatch env req) -> keeps_docs (fetch env req).
Proof.
  intros Hd s. unfold fetch.
  destruct (negb _); [reflexivity|].
  destruct (authorization req) as [token|]; [|reflexivity].
  destruct (String.eqb token ""); [reflexivity|].
  destruct (logIn env token) as [e1|] eqn:El.
  { now rewrite (serve_rejected env req token e1 s El). }
  destruct (open_collection env) as [e2|] eqn:Eo.
  { now rewrite (serve_no_handle env req token e2 s El Eo). }
  rewrite (serve_dispatch env req token s El Eo).
  unfold guarded_dispatch.
  rewrite (keeps_docs_try_catch _ _ Hd (fun e => keeps_docs_ret _)).
  reflexivity.
Qed.

(** X5: a GET never writes.  Whatever its path, headers and [id], and
    whatever the collaborators do, a GET leaves the documents as they
    were, and the calls it adds are a login at most and one read
    ([findOne] or [find]) at most. *)
Theorem get_never_writes (env : Env) (req : Request) (st : store) :
  method req = "GET" ->
  docs (snd (fetch env req st)) = docs st /\
  exists cs,
    calls (snd (fetch env req st)) = (calls st ++ cs)%list /\
    length cs <= 2 /\
    forallb (fun c => negb (is_write c)) cs = true.
Proof.
  intros Hm.
  assert (Hd : dispatch env req = GET env req).
  { now rewrite (dispatch_method env req "GET" Hm). }
  split.
  - apply fetch_keeps_docs. rewrite Hd. apply GET_keeps_docs.
  - unfold fetch.
    destruct (negb _); [exists []; simpl; rewrite app_nil_r; repeat split; lia|].
    destruct (authorization req) as [token|];
      [|exists []; simpl; rewrite app_nil_r; repeat split; lia].
    destruct (String.eqb token "");
      [exists []; simpl; rewrite app_nil_r; repeat split; lia|].
    assert (He : emits is_read 1 (dispatch env req)).
    { rewrite Hd. apply GET_emits. }
    destruct (serve_calls is_read 1 env req token st He)
      as (rest & H1 & H2 & H3 & _).
    exists (LogIn token :: rest). split; [exact H1|]. split; [simpl; lia|].
    simpl. rewrite forallb_forall in *. intros c Hc.
    specialize (H3 c Hc). now destruct c.
Qed.

Lemma get_never_writes_witness :
  docs (snd (fetch (down (Exn None)) (request "GET" (Some milk_id) no_body)
               pantry)) = [milk; eggs] /\
  exists cs,
    calls (snd (fetch (down (Exn None)) (request "GET" (Some milk_id) no_body)
                  pantry)) = cs /\
    length cs <= 2 /\ forallb (fun c => negb (is_write c)) cs = true.
Proof.
  destruct (get_never_writes (down (Exn None))
              (request "GET" (Some milk_id) no_body) pantry eq_refl)
    as (H1 & cs & H2 & H3 & H4).
  split; [exact H1|]. exists cs. repeat split; assumption.
Defined.

(** ** The responses *)

Section Answers.

Context {A : Type} (Q : A -> Prop).

Lemma answers_ret (a : A) : Q a -> answers Q (ret a).
Proof. intros H s a' s' [= <- _]. exact H. Qed.

Lemma answers_bind {B} (m : M B) (k : B -> M A) :
  (forall b, answers Q (k b)) -> answers Q (bind m k).
Proof.
  intros Hk s a s'. unfold bind.
  destruct (m s) as [[b | e] s1]; [apply Hk | discriminate].
Qed.

Lemma answers_try_catch (m : M A) (h : exn -> M A) :
  answers Q m -> (forall e, answers Q (h e)) -> answers Q (try_catch m h).
Proof.
  intros Hm Hh s a s'. unfold try_catch. specialize (Hm s).
  destruct (m s) as [[a1 | e] s1].
  - intros [= <- _]. now apply (Hm a1 s1).
  - apply Hh.
Qed.

End Answers.

Lemma handler_response_reply p : handler_response (utils.reply p).
Proof. left. now exists p. Qed.

Lemma handler_response_toError msg code :
  In code [401; 404; 405; 500]%Z ->
  handler_response (utils.toError msg code).
Proof. intros H. right. now exists msg, code. Qed.

Lemma dispatch_answers env req : answers handler_response (dispatch env req).
Proof.
  assert (R : forall p, answers handler_response (ret (utils.reply p))).
  { intros p. apply answers_ret, handler_response_reply. }
  assert (E : forall msg code, In code [401; 404; 405; 500]%Z ->
              answers handler_response (ret (utils.toError msg code))).
  { intros msg code H. now apply answers_ret, handler_response_toError. }
  unfold dispatch.
  destruct (String.eqb (method req) "GET").
  { unfold GET. destruct (negb _); repeat (apply answers_bind; intros ?);
      apply R. }
  destruct (String.eqb (method req) "POST").
  { unfold POST. do 2 (apply answers_bind; intros ?).
    destruct b0 as [[n p] q]. apply answers_bind; intros ?. apply R. }
  destruct (String.eqb (method req) "PATCH").
  { unfold PATCH. apply answers_try_catch.
    - do 2 (apply answers_bind; intros ?). destruct (truthy b0).
      + do 2 (apply answers_bind; intros ?). apply R.
      + apply E. simpl. tauto.
    - intros e. apply E. simpl. tauto. }
  destruct (String.eqb (method req) "PUT").
  { unfold PUT. apply answers_try_catch.
    - do 2 (apply answers_bind; intros ?). destruct b0 as [[n p] q].
      do 2 (apply answers_bind; intros ?). apply R.
    - intros e. apply E. simpl. tauto. }
  destruct (String.eqb (method req) "DELETE").
  { unfold DELETE. do 2 (apply answers_bind; intros ?). apply R. }
  apply E. simpl. tauto.
Qed.

(** X6: every response [fetch] returns is one of two envelopes: status
    200 with [success: true], or status 401, 404, 405 or 500 with
    [success: false] and a text under [error].  (The two formatters are
    the ones of [./utils], as the specification describes them.) *)
Theorem response_envelopes (env : Env) (req : Request) (st st' : store)
  (r : Response) :
  fetch env req st = (Ok r, st') ->
  (status r = 200%Z /\ member "success" (body r) = JBool true) \/
  (In (status r) [401; 404; 405; 500]%Z /\
   member "success" (body r) = JBool false /\
   exists msg, member "error" (body r) = JStr msg).
Proof.
  intros H.
  assert (Hr : handler_response r).
  { revert H. unfold fetch.
    destruct (negb _).
    { intros [= <- _]. apply handler_response_toError. simpl. tauto. }
    destruct (authorization req) as [token|].
    2:{ intros [= <- _]. apply handler_response_toError. simpl. tauto. }
    destruct (String.eqb token "").
    { intros [= <- _]. apply handler_response_toError. simpl. tauto. }
    destruct (logIn env token) as [e1|] eqn:El.
    { rewrite (serve_rejected env req token e1 st El).
      intros [= <- _]. apply handler_response_toError. simpl. tauto. }
    destruct (open_collection env) as [e2|] eqn:Eo.
    { now rewrite (serve_no_handle env req token e2 st El Eo). }
    rewrite (serve_dispatch env req token st El Eo).
    apply (answers_try_catch handler_response).
    - apply dispatch_answers.
    - intros e. apply answers_ret, handler_response_toError. simpl. tauto. }
  destruct Hr as [(p & ->) | (msg & code & -> & Hc)].
  - left. split; reflexivity.
  - right. split; [exact Hc|]. split; [reflexivity|]. now exists msg.
Qed.

Lemma response_envelopes_witness :
  fetch up (request "TRACE" None no_body) pantry =
  (Ok (utils.toError "Method not allowed." 405),
   {| docs := [milk; eggs]; calls := [LogIn "key"] |}) /\
  In (status (utils.toError "Method not allowed." 405))
    [401; 404; 405; 500]%Z /\
  member "success" (body (utils.toError "Method not allowed." 405))
  = JBool false.
Proof.
  split; [reflexivity|].
  destruct (response_envelopes up (request "TRACE" None no_body) pantry
              {| docs := [milk; eggs]; calls := [LogIn "key"] |}
              (utils.toError "Method not allowed." 405) eq_refl)
    as [[H _] | [H1 [H2 _]]].
  - discriminate H.
  - split; assumption.
Defined.

(** ** The inner handlers of PATCH and PUT *)

Lemma PATCH_read_fails env req o e s :
  ObjectId env (itemID req) = Ok o ->
  fault env (FindOne o) = Some e ->
  PATCH env req s =
  (Ok (utils.toError "Internal Server Error" 500), record_call (FindOne o) s).
Proof.
  intros Ho Hf. unfold PATCH, try_catch, bind, lift. rewrite Ho.
  unfold collection.findOne. rewrite (remote_fault _ _ _ _ _ Hf). reflexivity.
Qed.

Lemma PATCH_write_fails env req o d e s :
  ObjectId env (itemID req) = Ok o ->
  fault env (FindOne o) = None ->
  find_doc o (docs s) = Some d ->
  fault env (UpdateOne o [("purchased", toggled d)]) = Some e ->
  PATCH env req s =
  (Ok (utils.toError "Internal Server Error" 500),
   record_call (UpdateOne o [("purchased", toggled d)])
     (record_call (FindOne o) s)).
Proof.
  intros Ho Hf Hd Hu. unfold PATCH, try_catch, bind, lift. rewrite Ho.
  unfold collection.findOne. rewrite (remote_ok _ _ _ _ Hf). simpl.
  rewrite Hd. simpl.
  unfold collection.updateOne. unfold toggled in Hu.
  rewrite (remote_fault _ _ _ _ _ Hu). reflexivity.
Qed.

(** X7: a PATCH whose lookup or whose write fails is answered 500
    "Internal Server Error": the inner [catch] drops the exception, so
    its message never reaches the caller (unlike a failing GET, POST or
    DELETE).  When the lookup succeeds and the write fails, the documents
    are as they were and the collection has seen both calls. *)
Theorem patch_remote_failure_500 (env : Env) (req : Request) (token : string)
  (o : oid) (st : store) :
  reaches_dispatch env req token ->
  method req = "PATCH" ->
  ObjectId env (itemID req) = Ok o ->
  (forall e, fault env (FindOne o) = Some e ->
     fetch env req st =
     (Ok (utils.toError "Internal Server Error" 500),
      {| docs := docs st; calls := calls st ++ [LogIn token; FindOne o] |}))
  /\
  (forall d e,
     fault env (FindOne o) = None ->
     find_doc o (docs st) = Some d ->
     fault env (UpdateOne o [("purchased", js_not (get_prop "purchased" d))])
     = Some e ->
     fetch env req st =
     (Ok (utils.toError "Internal Server Error" 500),
      {| docs := docs st;
         calls := calls st ++
                  [LogIn token; FindOne o;
                   UpdateOne o
                     [("purchased", js_not (get_prop "purchased" d))]] |})).
Proof.
  intros Hr Hm Ho. split.
  - intros e Hf. rewrite (fetch_dispatch env req token st Hr).
    erewrite guarded_dispatch_ok.
    2:{ rewrite (dispatch_method env req "PATCH" Hm). simpl.
        apply (PATCH_read_fails env req o e); assumption. }
    f_equal. unfold record_call at 1. f_equal. apply logged_in_calls.
  - intros d e Hf Hd Hu. rewrite (fetch_dispatch env req token st Hr).
    erewrite guarded_dispatch_ok.
    2:{ rewrite (dispatch_method env req "PATCH" Hm). simpl.
        apply (PATCH_write_fails env req o d e); assumption. }
    unfold toggled, record_call, logged_in. simpl.
    now rewrite <- !app_assoc.
Qed.

Lemma patch_remote_failure_500_witness :
  fetch (down (Exn (Some "socket hang up")))
    (request "PATCH" (Some milk_id) no_body) pantry =
  (Ok (utils.toError "Internal Server Error" 500),
   {| docs := [milk; eggs]; calls := [LogIn "key"; FindOne 10%N] |}) /\
  fetch (read_only (Exn (Some "not allowed")))
    (request "PATCH" (Some milk_id) no_body) pantry =
  (Ok (utils.toError "Internal Server Error" 500),
   {| docs := [milk; eggs];
      calls := [LogIn "key"; FindOne 10%N;
                UpdateOne 10%N [("purchased", JBool true)]] |}).
Proof.
  assert (Hr : forall env, logIn env "key" = None ->
                 open_collection env = None ->
                 reaches_dispatch env
                   (request "PATCH" (Some milk_id) no_body) "key").
  { intros env Hl Ho. repeat split; trivial. discriminate. }
  split.
  - apply (proj1 (patch_remote_failure_500
                    (down (Exn (Some "socket hang up")))
                    (request "PATCH" (Some milk_id) no_body) "key" 10%N pantry
                    (Hr (down (Exn (Some "socket hang up"))) eq_refl eq_refl)
                    eq_refl eq_refl)
             (Exn (Some "socket hang up"))).
    reflexivity.
  - apply (proj2 (patch_remote_failure_500
                    (read_only (Exn (Some "not allowed")))
                    (request "PATCH" (Some milk_id) no_body) "key" 10%N pantry
                    (Hr (read_only (Exn (Some "not allowed"))) eq_refl eq_refl)
                    eq_refl eq_refl)
             milk (Exn (Some "not allowed"))); reflexivity.
Defined.

Lemma PUT_fails_early env req s :
  (exists e, json req = Throw e) \/ json req = Ok JNull \/
  (exists e, ObjectId env (itemID req) = Throw e) ->
  PUT env req s = (Ok (utils.toError "Internal Server Error" 500), s).
Proof.
  intros H. unfold PUT, try_catch, bind, lift.
  destruct (json req) as [v | e0]; [|reflexivity].
  destruct (destructure v) as [[[n p] q] | e1] eqn:Ed; [|reflexivity].
  destruct H as [(e & H) | [H | (e & H)]].
  - discriminate.
  - injection H as ->. discriminate.
  - rewrite H. reflexivity.
Qed.

Lemma PUT_write env req v n p q o s :
  json req = Ok v -> destructure v = Ok (n, p, q) ->
  ObjectId env (itemID req) = Ok o ->
  let u := [("name", n); ("purchased", p); ("quantity", q);
            ("_id", JUndefined)] in
  (forall e, fault env (UpdateOne o u) = Some e ->
     PUT env req s =
     (Ok (utils.toError "Internal Server Error" 500),
      record_call (UpdateOne o u) s)) /\
  (fault env (UpdateOne o u) = None ->
     PUT env req s =
     (Ok (utils.reply (JObj [("matchedCount", count_of (matched o (docs s)))])),
      {| docs := update_first o (apply_set u) (docs s);
         calls := calls s ++ [UpdateOne o u] |})).
Proof.
  intros Hj Hd Ho u. unfold PUT, try_catch, bind, lift.
  rewrite Hj, Hd, Ho, updateObject_literal. fold u.
  unfold collection.updateOne. split.
  - intros e Hf. rewrite (remote_fault _ _ _ _ _ Hf). reflexivity.
  - intros Hf. rewrite (remote_ok _ _ _ _ Hf). reflexivity.
Qed.

(** X8: a PUT that fails is answered 500 "Internal Server Error",
    whatever failed: a body that does not parse, a [null] body, an [id]
    the identifier constructor refuses, or the write itself.  The parse
    error's message is not passed on (a POST passes it on), nothing is
    changed, and in the first three cases the collection is not called
    at all. *)
Theorem put_failure_500 (env : Env) (req : Request) (token : string)
  (st : store) :
  reaches_dispatch env req token ->
  method req = "PUT" ->
  ((exists e, json req = Throw e) \/ json req = Ok JNull \/
   (exists e, ObjectId env (itemID req) = Throw e) ->
   fetch env req st =
   (Ok (utils.toError "Internal Server Error" 500),
    {| docs := docs st; calls := calls st ++ [LogIn token] |})) /\
  (forall v n p q o e,
     json req = Ok v -> destructure v = Ok (n, p, q) ->
     ObjectId env (itemID req) = Ok o ->
     fault env (UpdateOne o [("name", n); ("purchased", p); ("quantity", q);
                             ("_id", JUndefined)]) = Some e ->
     fetch env req st =
     (Ok (utils.toError "Internal Server Error" 500),
      {| docs := docs st;
         calls := calls st ++
                  [LogIn token;
                   UpdateOne o [("name", n); ("purchased", p);
                                ("quantity", q); ("_id", JUndefined)]] |})).
Proof.
  intros Hr Hm. split.
  - intros H. rewrite (fetch_dispatch env req token st Hr).
    apply guarded_dispatch_ok.
    rewrite (dispatch_method env req "PUT" Hm). simpl.
    now apply PUT_fails_early.
  - intros v n p q o e Hj Hd Ho Hf.
    rewrite (fetch_dispatch env req token st Hr).
    erewrite guarded_dispatch_ok.
    2:{ rewrite (dispatch_method env req "PUT" Hm). simpl.
        apply (proj1 (PUT_write env req v n p q o _ Hj Hd Ho) e Hf). }
    f_equal. unfold record_call at 1. f_equal. apply logged_in_calls.
Qed.

Lemma put_failure_500_witness :
  fetch up (request "PUT" (Some milk_id) no_body) pantry =
  (Ok (utils.toError "Internal Server Error" 500),
   {| docs := [milk; eggs]; calls := [LogIn "key"] |}) /\
  fetch (read_only (Exn (Some "not allowed")))
    (request "PUT" (Some milk_id) (Ok (JObj [("name", JStr "Oat milk")])))
    pantry =
  (Ok (utils.toError "Internal Server Error" 500),
   {| docs := [milk; eggs];
      calls := [LogIn "key";
                UpdateOne 10%N
                  [("name", JStr "Oat milk"); ("purchased", JUndefined);
                   ("quantity", JUndefined); ("_id", JUndefined)]] |}).
Proof.
  assert (Hr : forall env b, logIn env "key" = None ->
                 open_collection env = None ->
                 reaches_dispatch env (request "PUT" (Some milk_id) b) "key").
  { intros env b Hl Ho. repeat split; trivial. discriminate. }
  split.
  - apply (proj1 (put_failure_500 up (request "PUT" (Some milk_id) no_body)
                    "key" pantry (Hr up no_body eq_refl eq_refl) eq_refl)).
    left. eexists. reflexivity.
  - apply (proj2 (put_failure_500 (read_only (Exn (Some "not allowed")))
                    (request "PUT" (Some milk_id)
                       (Ok (JObj [("name", JStr "Oat milk")])))
                    "key" pantry
                    (Hr (read_only (Exn (Some "not allowed"))) _
                       eq_refl eq_refl) eq_refl)
             (JObj [("name", JStr "Oat milk")]) (JStr "Oat milk") JUndefined
             JUndefined 10%N (Exn (Some "not allowed")));
      reflexivity.
Defined.

Lemma update_first_missing (o : oid) (f : object -> object)
  (ds : list object) :
  find_doc o ds = None -> update_first o f ds = ds.
Proof.
  induction ds as [|d ds IH]; simpl; [reflexivity|].
  destruct (has_id o d); [discriminate|]. intros H. now rewrite IH.
Qed.

(** X9: a PUT that goes through hands [updateOne] the body's [name],
    [purchased] and [quantity] exactly as the body has them (a [false] or
    an empty string stays what it is, an omitted one is [undefined];
    nothing is defaulted as POST does) together with [_id: undefined],
    and answers success with the update result.  There is no existence
    check: on an [id] that names no document the answer is still a
    success, with a matched count of 0 and the documents unchanged. *)
Theorem put_passes_body_on (env : Env) (req : Request) (token : string)
  (v name purchased quantity : jsval) (o : oid) (st : store) :
  reaches_dispatch env req token ->
  method req = "PUT" ->
  json req = Ok v ->
  destructure v = Ok (name, purchased, quantity) ->
  ObjectId env (itemID req) = Ok o ->
  let u := [("name", member "name" v); ("purchased", member "purchased" v);
            ("quantity", member "quantity" v); ("_id", JUndefined)] in
  fault env (UpdateOne o u) = None ->
  fst (fetch env req st)
  = Ok (utils.reply (JObj [("matchedCount", count_of (matched o (docs st)))]))
  /\ calls (snd (fetch env req st))
     = (calls st ++ [LogIn token; UpdateOne o u])%list
  /\ (find_doc o (docs st) = None ->
      fetch env req st =
      (Ok (utils.reply (JObj [("matchedCount", count_of false)])),
       {| docs := docs st;
          calls := calls st ++ [LogIn token; UpdateOne o u] |})).
Proof.
  intros Hr Hm Hj Hd Ho u Hf.
  assert (Hv : (name, purchased, quantity)
               = (member "name" v, member "purchased" v, member "quantity" v)).
  { destruct v; simpl in Hd; try discriminate; now inversion Hd. }
  injection Hv as -> -> ->.
  assert (E : fetch env req st =
    (Ok (utils.reply (JObj [("matchedCount", count_of (matched o (docs st)))])),
     {| docs := update_first o (apply_set u) (docs st);
        calls := calls st ++ [LogIn token; UpdateOne o u] |})).
  { rewrite (fetch_dispatch env req token st Hr).
    erewrite guarded_dispatch_ok.
    2:{ rewrite (dispatch_method env req "PUT" Hm). simpl.
        apply (proj2 (PUT_write env req v _ _ _ o _ Hj Hd Ho) Hf). }
    simpl. now rewrite <- app_assoc. }
  rewrite E. split; [reflexivity|]. split; [reflexivity|].
  intros Hn. unfold matched. rewrite Hn.
  now rewrite (update_first_missing _ _ _ Hn).
Qed.

Lemma put_passes_body_on_witness :
  let body := JObj [("name", JStr ""); ("purchased", JBool false)] in
  let u := [("name", JStr ""); ("purchased", JBool false);
            ("quantity", JUndefined); ("_id", JUndefined)] in
  fetch up (request "PUT" (Some "00000000000000000000000c") (Ok body)) pantry =
  (Ok (utils.reply (JObj [("matchedCount", count_of false)])),
   {| docs := [milk; eggs]; calls := [LogIn "key"; UpdateOne 12%N u] |}).
Proof.
  intros body u.
  assert (Hr : reaches_dispatch up
                 (request "PUT" (Some "00000000000000000000000c") (Ok body))
                 "key").
  { repeat split. discriminate. }
  apply (proj2 (proj2 (put_passes_body_on up
           (request "PUT" (Some "00000000000000000000000c") (Ok body)) "key"
           body (JStr "") (JBool false) JUndefined 12%N pantry
           Hr eq_refl eq_refl eq_refl eq_refl eq_refl))).
  reflexivity.
Defined.

(** ** DELETE *)

Lemma delete_first_missing (o : oid) (ds : list object) :
  find_doc o ds = None -> delete_first o ds = ds.
Proof.
  induction ds as [|d ds IH]; simpl; [reflexivity|].
  destruct (has_id o d); [discriminate|]. intros H. now rewrite IH.
Qed.

Lemma has_id_inj (o o' : oid) (d : object) :
  has_id o d = true -> has_id o' d = true -> o' = o.
Proof.
  unfold has_id. destruct (get_prop "_id" d); try discriminate.
  intros H1 H2. apply N.eqb_eq in H1, H2. congruence.
Qed.

Lemma find_doc_delete_first_other (o o' : oid) (ds : list object) :
  o' <> o -> find_doc o' (delete_first o ds) = find_doc o' ds.
Proof.
  intros Hne. induction ds as [|d ds IH]; simpl; [reflexivity|].
  destruct (has_id o d) eqn:E; simpl.
  - destruct (has_id o' d) eqn:E'; [|reflexivity].
    now destruct (Hne (has_id_inj o o' d E E')).
  - now rewrite IH.
Qed.

Lemma find_doc_none_of_filter (o : oid) (ds : list object) :
  filter (has_id o) ds = [] -> find_doc o ds = None.
Proof.
  induction ds as [|d ds IH]; simpl; [reflexivity|].
  destruct (has_id o d); [discriminate | exact IH].
Qed.

Lemma find_doc_delete_first_unique (o : oid) (ds : list object) :
  unique_id o ds -> find_doc o (delete_first o ds) = None.
Proof.
  unfold unique_id. induction ds as [|d ds IH]; simpl; [reflexivity|].
  destruct (has_id o d) eqn:E; simpl.
  - intros H. apply find_doc_none_of_filter.
    destruct (filter (has_id o) ds); [reflexivity | simpl in H; lia].
  - rewrite E. exact IH.
Qed.

Lemma DELETE_ok env req o s :
  ObjectId env (itemID req) = Ok o ->
  fault env (DeleteOne o) = None ->
  DELETE env req s =
  (Ok (utils.reply (JObj [("deletedCount", count_of (matched o (docs s)))])),
   {| docs := delete_first o (docs s); calls := calls s ++ [DeleteOne o] |}).
Proof.
  intros Ho Hf. unfold DELETE, bind, lift. rewrite Ho.
  unfold collection.deleteOne. rewrite (remote_ok _ _ _ _ Hf). reflexivity.
Qed.

Lemma fetch_DELETE_ok env req token o st :
  reaches_dispatch env req token ->
  method req = "DELETE" ->
  ObjectId env (itemID req) = Ok o ->
  fault env (DeleteOne o) = None ->
  fetch env req st =
  (Ok (utils.reply (JObj [("deletedCount", count_of (matched o (docs st)))])),
   {| docs := delete_first o (docs st);
      calls := calls st ++ [LogIn token; DeleteOne o] |}).
Proof.
  intros Hr Hm Ho Hf.
  rewrite (fetch_dispatch env req token st Hr).
  erewrite guarded_dispatch_ok.
  2:{ rewrite (dispatch_method env req "DELETE" Hm). simpl.
      apply DELETE_ok; eassumption. }
  simpl. now rewrite <- app_assoc.
Qed.

(** X10: a DELETE whose [id] the identifier constructor accepts and
    whose call goes through is answered with success and the deletion
    result, whether or not a document had that identifier: there is no
    existence check and no 404 (PATCH has one).  On an identifier that
    names no document the count is 0 and the documents are unchanged; on
    one that names a document the count is 1 and the other identifiers
    still find what they found. *)
Theorem delete_replies_count (env : Env) (req : Request) (token : string)
  (o : oid) (st : store) :
  reaches_dispatch env req token ->
  method req = "DELETE" ->
  ObjectId env (itemID req) = Ok o ->
  fault env (DeleteOne o) = None ->
  (find_doc o (docs st) = None ->
   fetch env req st =
   (Ok (utils.reply (JObj [("deletedCount", count_of false)])),
    {| docs := docs st; calls := calls st ++ [LogIn token; DeleteOne o] |}))
  /\
  (forall d, find_doc o (docs st) = Some d ->
   fst (fetch env req st)
   = Ok (utils.reply (JObj [("deletedCount", count_of true)])) /\
   length (docs (snd (fetch env req st))) + 1 = length (docs st) /\
   forall o', o' <> o ->
     find_doc o' (docs (snd (fetch env req st))) = find_doc o' (docs st)).
Proof.
  intros Hr Hm Ho Hf.
  rewrite (fetch_DELETE_ok env req token o st Hr Hm Ho Hf).
  unfold matched. split.
  - intros Hn. rewrite Hn. now rewrite (delete_first_missing _ _ Hn).
  - intros d Hd. rewrite Hd. simpl. split; [reflexivity|]. split.
    + clear -Hd. revert Hd.
      induction (docs st) as [|d0 ds IH]; simpl; [discriminate|].
      destruct (has_id o d0); [intros _; lia|].
      intros H. simpl. rewrite <- (IH H). lia.
    + intros o' Hne. now apply find_doc_delete_first_other.
Qed.

Lemma delete_replies_count_witness :
  fetch up (request "DELETE" (Some "00000000000000000000000c") no_body) pantry
  = (Ok (utils.reply (JObj [("deletedCount", count_of false)])),
     {| docs := [milk; eggs]; calls := [LogIn "key"; DeleteOne 12%N] |}) /\
  fst (fetch up (request "DELETE" (Some milk_id) no_body) pantry)
  = Ok (utils.reply (JObj [("deletedCount", count_of true)])).
Proof.
  assert (Hr : forall i, reaches_dispatch up
                 (request "DELETE" (Some i) no_body) "key").
  { intros i. repeat split. discriminate. }
  split.
  - apply (proj1 (delete_replies_count up
             (request "DELETE" (Some "00000000000000000000000c") no_body)
             "key" 12%N pantry (Hr _) eq_refl eq_refl eq_refl)).
    reflexivity.
  - apply (proj2 (delete_replies_count up
             (request "DELETE" (Some milk_id) no_body)
             "key" 10%N pantry (Hr _) eq_refl eq_refl eq_refl) milk).
    reflexivity.
Defined.

Lemma fetch_GET_by_id env req token o st :
  reaches_dispatch env req token ->
  method req = "GET" ->
  itemID req <> "" ->
  ObjectId env (itemID req) = Ok o ->
  fault env (FindOne o) = None ->
  fst (fetch env req st) =
  Ok (utils.reply
        (match find_doc o (docs st) with Some d => JObj d | None => JNull end)).
Proof.
  intros Hr Hm Hi Ho Hf.
  rewrite (fetch_dispatch env req token st Hr).
  erewrite guarded_dispatch_ok.
  2:{ rewrite (dispatch_method env req "GET" Hm). simpl.
      apply GET_by_id; eassumption. }
  reflexivity.
Qed.

(** X11: DELETE, then GET.  When at most one document carries the
    identifier (the store's own guarantee), a DELETE on it that goes
    through followed by a GET on the same [id] is answered with success
    and [null]: the handler reports a deleted document the way it reports
    one that never was. *)
Theorem delete_then_get_null (env : Env) (del get : Request)
  (token token' : string) (o : oid) (st : store) :
  reaches_dispatch env del token ->
  reaches_dispatch env get token' ->
  method del = "DELETE" ->
  method get = "GET" ->
  itemID get = itemID del ->
  itemID del <> "" ->
  ObjectId env (itemID del) = Ok o ->
  fault env (DeleteOne o) = None ->
  fault env (FindOne o) = None ->
  unique_id o (docs st) ->
  fst (fetch env get (snd (fetch env del st))) = Ok (utils.reply JNull).
Proof.
  intros Hd Hg Md Mg Hi Hne Ho Fd Ff Hu.
  rewrite (fetch_DELETE_ok env del token o st Hd Md Ho Fd).
  rewrite <- Hi in Ho, Hne.
  rewrite (fetch_GET_by_id env get token' o _ Hg Mg Hne Ho Ff).
  simpl. now rewrite (find_doc_delete_first_unique _ _ Hu).
Qed.

Lemma delete_then_get_null_witness :
  unique_id 10%N (docs pantry) /\
  fst (fetch up (request "GET" (Some milk_id) no_body)
         (snd (fetch up (request "DELETE" (Some milk_id) no_body) pantry)))
  = Ok (utils.reply JNull).
Proof.
  assert (Hu : unique_id 10%N (docs pantry)).
  { unfold unique_id. simpl. lia. }
  split; [exact Hu|].
  assert (Hr : forall m, reaches_dispatch up
                 (request m (Some milk_id) no_body) "key").
  { intros m. repeat split. discriminate. }
  apply (delete_then_get_null up (request "DELETE" (Some milk_id) no_body)
           (request "GET" (Some milk_id) no_body) "key" "key" 10%N pantry
           (Hr _) (Hr _) eq_refl eq_refl eq_refl);
    try reflexivity; [discriminate | exact Hu].
Defined.

(** ** POST *)

Lemma doc_id_le_max (d : object) (ds : list object) :
  In d ds -> (doc_id d <= fold_right N.max 0 (map doc_id ds))%N.
Proof.
  induction ds as [|d0 ds IH]; simpl; [tauto|].
  intros [-> | H]; [apply N.le_max_l|].
  etransitivity; [exact (IH H) | apply N.le_max_r].
Qed.

Lemma find_doc_in (o : oid) (ds : list object) (d : object) :
  find_doc o ds = Some d -> In d ds /\ has_id o d = true.
Proof.
  induction ds as [|d0 ds IH]; simpl; [discriminate|].
  destruct (has_id o d0) eqn:E.
  - intros [= <-]. auto.
  - intros H. destruct (IH H). auto.
Qed.

Lemma find_doc_fresh_id (ds : list object) : find_doc (fresh_id ds) ds = None.
Proof.
  destruct (find_doc (fresh_id ds) ds) as [d|] eqn:E; [|reflexivity].
  destruct (find_doc_in _ _ _ E) as [Hin Hid].
  pose proof (doc_id_le_max d ds Hin) as Hle.
  unfold fresh_id in Hid.
  set (m := fold_right N.max 0%N (map doc_id ds)) in *.
  unfold has_id in Hid. unfold doc_id in Hle.
  destruct (get_prop "_id" d) as [| | | | |o'| |]; try discriminate.
  apply N.eqb_eq in Hid. unfold oid in *. lia.
Qed.

Lemma find_doc_app (o : oid) (ds ds' : list object) :
  find_doc o (ds ++ ds') =
  match find_doc o ds with
  | Some d => Some d
  | None => find_doc o ds'
  end.
Proof.
  induction ds as [|d ds IH]; simpl; [reflexivity|].
  destruct (has_id o d); [reflexivity | exact IH].
Qed.

Lemma has_id_cons (o : oid) (d : object) :
  has_id o (("_id", JOid o) :: d) = true.
Proof. unfold has_id. simpl. apply N.eqb_refl. Qed.

(** X12: a POST that goes through adds exactly one document, after the
    ones already there: the body's [name] and [quantity] as given,
    [purchased || false], and the identifier the store assigned, which
    the response carries as [insertedId].  That identifier named no
    document before and names the new one afterwards; every identifier
    that named a document still names the same one.  Nothing makes a
    second identical POST different from the first: it adds a second
    document. *)
Theorem post_adds_one_document (env : Env) (req : Request) (token : string)
  (v name purchased quantity : jsval) (st : store) :
  reaches_dispatch env req token ->
  method req = "POST" ->
  json req = Ok v ->
  destructure v = Ok (name, purchased, quantity) ->
  fault env (InsertOne (newDocument name purchased quantity)) = None ->
  let i := fresh_id (docs st) in
  let d := ("_id", JOid i) :: newDocument name purchased quantity in
  let after := snd (fetch env req st) in
  fst (fetch env req st) = Ok (utils.reply (JObj [("insertedId", JOid i)])) /\
  docs after = (docs st ++ [d])%list /\
  find_doc i (docs st) = None /\
  find_doc i (docs after) = Some d /\
  (forall o d0, find_doc o (docs st) = Some d0 ->
                find_doc o (docs after) = Some d0) /\
  length (docs (snd (fetch env req after))) = length (docs st) + 2.
Proof.
  intros Hr Hm Hj Hd Hf i d after.
  assert (E : forall s, fetch env req s =
    (Ok (utils.reply (JObj [("insertedId", JOid (fresh_id (docs s)))])),
     {| docs := docs s ++
                [("_id", JOid (fresh_id (docs s)))
                 :: newDocument name purchased quantity];
        calls := calls s ++
                 [LogIn token;
                  InsertOne (newDocument name purchased quantity)] |})).
  { intros s. rewrite (fetch_dispatch env req token s Hr).
    erewrite guarded_dispatch_ok.
    2:{ rewrite (dispatch_method env req "POST" Hm). simpl.
        apply (proj2 (POST_calls env req v _ _ _ _ Hj Hd) Hf). }
    simpl. now rewrite <- app_assoc. }
  unfold after. rewrite (E st). cbn [fst snd docs].
  split; [reflexivity|]. split; [reflexivity|].
  split; [apply find_doc_fresh_id|]. split; [|split].
  - unfold d, i. rewrite find_doc_app, find_doc_fresh_id. cbn [find_doc].
    now rewrite has_id_cons.
  - intros o d0 H. now rewrite find_doc_app, H.
  - rewrite (E _). cbn [snd docs]. rewrite !length_app. simpl. lia.
Qed.

Lemma post_adds_one_document_witness :
  let body := JObj [("name", JStr "Tea"); ("quantity", JStr "1")] in
  let tea := [("_id", JOid 12%N); ("name", JStr "Tea");
              ("purchased", JBool false); ("quantity", JStr "1")] in
  fst (fetch up (request "POST" None (Ok body)) pantry)
  = Ok (utils.reply (JObj [("insertedId", JOid 12%N)])) /\
  docs (snd (fetch up (request "POST" None (Ok body)) pantry))
  = [milk; eggs; tea].
Proof.
  intros body tea.
  assert (Hr : reaches_dispatch up (request "POST" None (Ok body)) "key").
  { repeat split. discriminate. }
  destruct (post_adds_one_document up (request "POST" None (Ok body)) "key"
              body (JStr "Tea") JUndefined (JStr "1") pantry
              Hr eq_refl eq_refl eq_refl eq_refl) as (H1 & H2 & _).
  split; [exact H1 | exact H2].
Defined.

(** X13: a POST whose body does not parse, or parses to [null], is
    answered 500 with the message of what was thrown (the parser's, or
    the engine's for destructuring [null]); nothing is inserted and the
    collection is not called. *)
Theorem post_bad_body_500 (env : Env) (req : Request) (token : string)
  (st : store) :
  reaches_dispatch env req token ->
  method req = "POST" ->
  (forall e, json req = Throw e ->
     fetch env req st =
     (Ok (utils.toError (query_message e) 500),
      {| docs := docs st; calls := calls st ++ [LogIn token] |})) /\
  (json req = Ok JNull ->
     fetch env req st =
     (Ok (utils.toError (query_message TypeError_destructure) 500),
      {| docs := docs st; calls := calls st ++ [LogIn token] |})).
Proof.
  intros Hr Hm. split.
  - intros e Hj. rewrite (fetch_dispatch env req token st Hr).
    apply guarded_dispatch_throw.
    rewrite (dispatch_method env req "POST" Hm). simpl.
    unfold POST, bind, lift. now rewrite Hj.
  - intros Hj. rewrite (fetch_dispatch env req token st Hr).
    apply guarded_dispatch_throw.
    rewrite (dispatch_method env req "POST" Hm). simpl.
    unfold POST, bind, lift. now rewrite Hj.
Qed.

Lemma post_bad_body_500_witness :
  fetch up (request "POST" None no_body) pantry =
  (Ok (utils.toError "Unexpected end of JSON input" 500),
   {| docs := [milk; eggs]; calls := [LogIn "key"] |}) /\
  fetch up (request "POST" None (Ok JNull)) pantry =
  (Ok (utils.toError "Cannot destructure property 'name' of null." 500),
   {| docs := [milk; eggs]; calls := [LogIn "key"] |}).
Proof.
  assert (Hr : forall b, reaches_dispatch up (request "POST" None b) "key").
  { intros b. repeat split. discriminate. }
  split.
  - apply (proj1 (post_bad_body_500 up (request "POST" None no_body) "key"
                    pantry (Hr _) eq_refl)
             (Exn (Some "Unexpected end of JSON input"))).
    reflexivity.
  - apply (proj2 (post_bad_body_500 up (request "POST" None (Ok JNull)) "key"
                    pantry (Hr _) eq_refl)).
    reflexivity.
Defined.
